(** * Auth store and team roster of the todolist front end

    A shallow embedding of the authentication store
    ([useAuthStore]: login, signup, logout, fetchProfile, clearError and
    the auth-change listener) and of the team roster aggregation of
    [TeamPage.fetchTeamMembers], followed by the properties of the
    specification that concern them.

    The hosted backend is external to the program.  It is modelled as an
    arbitrary deterministic state machine over a world type [W]: every
    client call takes the world, answers, and yields the next world.  An
    answer is a promise that either resolves with a value or rejects with
    a thrown value.  All theorems quantify over the backend. *)

From Stdlib Require Import String Ascii List Bool Arith Lia Permutation.
Import ListNotations.

Local Open Scope string_scope.
Local Open Scope list_scope.

(* ===================================================================== *)
(** ** JavaScript string primitives used by the source *)
(* ===================================================================== *)

Module Js.

(** A [string] is read as a sequence of code units below 256 (the
    characters U+0000 to U+00FF); text with characters beyond that range
    is outside this model.

    Characters removed by [String.prototype.trim] in that range: TAB, LF,
    VT, FF, CR, space and the no-break space. *)
Definition isWhitespace (c : ascii) : bool :=
  let n := nat_of_ascii c in
  (Nat.leb 9 n && Nat.leb n 13) || Nat.eqb n 32 || Nat.eqb n 160.

Fixpoint trimStart (s : string) : string :=
  match s with
  | EmptyString => EmptyString
  | String c s' => if isWhitespace c then trimStart s' else s
  end.

Fixpoint trimEnd (s : string) : string :=
  match s with
  | EmptyString => EmptyString
  | String c s' =>
      match trimEnd s' with
      | EmptyString => if isWhitespace c then EmptyString
                       else String c EmptyString
      | t => String c t
      end
  end.

Definition trim (s : string) : string := trimEnd (trimStart s).

(** Lower-casing of one character, a string being read as a sequence
    of code units below 256: the capitals A-Z and, in the upper half,
    the capitals from A-grave to Thorn (192-222) except the
    multiplication sign (215) move 32 places up; every other character
    is its own lower case. *)
Definition lowerChar (c : ascii) : ascii :=
  let n := nat_of_ascii c in
  if (Nat.leb 65 n && Nat.leb n 90)
     || (Nat.leb 192 n && Nat.leb n 222 && negb (Nat.eqb n 215))
  then ascii_of_nat (n + 32) else c.

(** [s.toLowerCase()], character by character. *)
Fixpoint toLowerCase (s : string) : string :=
  match s with
  | EmptyString => EmptyString
  | String c s' => String (lowerChar c) (toLowerCase s')
  end.

(** [s.includes(needle)] *)
Fixpoint includes (needle s : string) : bool :=
  prefix needle s ||
  match s with
  | EmptyString => false
  | String _ s' => includes needle s'
  end.

(** [s.split(sep)[0]] for a one-character separator: the part of [s]
    before the first [sep], all of [s] when there is none. *)
Fixpoint splitHead (sep : ascii) (s : string) : string :=
  match s with
  | EmptyString => EmptyString
  | String c s' =>
      if Ascii.eqb c sep then EmptyString else String c (splitHead sep s')
  end.

(** Truthiness of a string value: only the empty string is falsy. *)
Definition truthy (s : string) : bool := negb (s =? "").

(** [v || d] where [v] is a string or [undefined]. *)
Definition orElse (v : option string) (d : string) : string :=
  match v with
  | Some s => if truthy s then s else d
  | None => d
  end.

End Js.

(* ===================================================================== *)
(** ** Data model *)
(* ===================================================================== *)

(** Modelled from the spec: the [User] type of the backend client library
    is not part of the sources.  The store reads [id], [email] (optional
    in the library's type, hence the source's [user.email!]) and
    [user_metadata?.name]. *)
Record User : Type := mkUser {
  user_id : string;
  user_email : option string;
  user_metadata_name : option string
}.

(** Modelled from the spec: the [Profile] row type is declared in
    [lib/supabase], which is not part of the sources; the fields are the
    ones of section 3 of the specification. *)
Record Profile : Type := mkProfile {
  profile_id : string;
  profile_email : string;
  profile_name : string;
  profile_avatar_url : option string;
  profile_created_at : string
}.

(** The data part of [AuthState]. *)
Record AuthState : Type := mkAuthState {
  user : option User;
  profile : option Profile;
  isLoading : bool;
  error : option string
}.

(** A value thrown by [throw] or carried by a rejected promise: a value
    whose [message] property can be read and may be missing (an object,
    or a primitive), or [undefined] or [null], on which reading a
    property throws. *)
Inductive Thrown : Type :=
| mkThrown (message : option string)
| Nullish.

(** The message a thrown value carries, if any. *)
Definition thrown_message (e : Thrown) : option string :=
  match e with
  | mkThrown message => message
  | Nullish => None
  end.

(** [new Error(msg)] *)
Definition newError (msg : string) : Thrown := mkThrown (Some msg).

(** The [TypeError] raised by a property access on [undefined]. *)
Definition typeError : Thrown :=
  mkThrown (Some "Cannot read properties of undefined").

Inductive Promise (A : Type) : Type :=
| Resolved (a : A)
| Rejected (e : Thrown).
Arguments Resolved {A} a.
Arguments Rejected {A} e.

(** Error object of the auth API. *)
Record AuthError : Type := mkAuthError {
  auth_message : string
}.

(** Error object of the table API. *)
Record PostgrestError : Type := mkPostgrestError {
  pg_code : string;
  pg_message : string
}.

(** [{ data: { user }, error }] of signInWithPassword and signUp. *)
Record AuthResponse : Type := mkAuthResponse {
  auth_user : option User;
  auth_error : option AuthError
}.

(** [{ data, error }] of a [.single()] select on [profiles]. *)
Record SelectResponse : Type := mkSelectResponse {
  select_data : option Profile;
  select_error : option PostgrestError
}.

(** The object literal passed to [.insert(...)] on [profiles]. *)
Record ProfileInsert : Type := mkProfileInsert {
  insert_id : string;
  insert_email : option string;
  insert_name : string
}.

(** The argument of [auth.signUp]. *)
Record SignUpArgs : Type := mkSignUpArgs {
  signup_email : string;
  signup_password : string;
  signup_data_name : string;
  signup_data_full_name : string;
  signup_emailRedirectTo : option string
}.

(** The backend client handle. *)
Record Backend (W : Type) : Type := mkBackend {
  signInWithPassword : string -> string -> W -> Promise AuthResponse * W;
  signUp : SignUpArgs -> W -> Promise AuthResponse * W;
  signOut : W -> Promise (option AuthError) * W;
  getUser : W -> Promise (option User) * W;
  selectProfile : string -> W -> Promise SelectResponse * W;
  insertProfile : ProfileInsert -> W -> Promise (option PostgrestError) * W
}.
Arguments signInWithPassword {W} _ _ _ _.
Arguments signUp {W} _ _ _.
Arguments signOut {W} _ _.
Arguments getUser {W} _ _.
Arguments selectProfile {W} _ _ _.
Arguments insertProfile {W} _ _ _.

(** What the store asks of the outside world, in the order asked. *)
Inductive Effect : Type :=
| CallSignIn (email password : string)
| CallSignUp (args : SignUpArgs)
| CallSignOut
| CallGetUser
| CallSelectProfile (id : string)
| CallInsertProfile (row : ProfileInsert)
| SetTimeout (ms : nat).

(** A console line: the level, the label and the logged value's message. *)
Inductive ConsoleLine : Type :=
| ConsoleError (label : string) (msg : option string)
| ConsoleWarn (label : string) (msg : option string).

(* ===================================================================== *)
(** ** The machine the store runs on *)
(* ===================================================================== *)

(** The store's data, the backend's world, and three logs: the effects
    requested so far, the console, and every state the store has been
    given by [set] (each of which the persist middleware writes out). *)
Record Machine (W : Type) : Type := mkMachine {
  store : AuthState;
  world : W;
  effects : list Effect;
  console : list ConsoleLine;
  history : list AuthState
}.
Arguments mkMachine {W} _ _ _ _ _.
Arguments store {W} _.
Arguments world {W} _.
Arguments effects {W} _.
Arguments console {W} _.
Arguments history {W} _.

(** How a piece of code ends: it returns a value or throws. *)
Inductive Outcome (A : Type) : Type :=
| Returned (a : A)
| Threw (e : Thrown).
Arguments Returned {A} a.
Arguments Threw {A} e.

(** Code that runs to completion on a machine. *)
Definition M (W A : Type) : Type := Machine W -> Outcome A * Machine W.

Definition ret {W A} (a : A) : M W A := fun m => (Returned a, m).

Definition bind {W A B} (c : M W A) (k : A -> M W B) : M W B :=
  fun m =>
    match c m with
    | (Returned a, m') => k a m'
    | (Threw e, m') => (Threw e, m')
    end.

Definition throw {W A} (e : Thrown) : M W A := fun m => (Threw e, m).

(** [try { body } catch (e) { handler }] *)
Definition try_catch {W A} (body : M W A) (handler : Thrown -> M W A)
  : M W A :=
  fun m =>
    match body m with
    | (Returned a, m') => (Returned a, m')
    | (Threw e, m') => handler e m'
    end.

Declare Scope store_scope.
Delimit Scope store_scope with store.
Notation "x <- c ;; k" := (bind c (fun x => k))
  (at level 61, c at next level, right associativity) : store_scope.
Notation "c ;; k" := (bind c (fun _ => k))
  (at level 61, right associativity) : store_scope.
Local Open Scope store_scope.

(** [get()] *)
Definition get {W} : M W AuthState := fun m => (Returned (store m), m).

(** [set(patch)]: merges the patch into the state; the new state is
    appended to the history. *)
Definition set {W} (patch : AuthState -> AuthState) : M W unit :=
  fun m =>
    let s := patch (store m) in
    (Returned tt,
     mkMachine s (world m) (effects m) (console m) (history m ++ [s])).

(** The patches the source passes to [set]. *)
Definition with_user (u : option User) (s : AuthState) : AuthState :=
  mkAuthState u (profile s) (isLoading s) (error s).
Definition with_profile (p : option Profile) (s : AuthState) : AuthState :=
  mkAuthState (user s) p (isLoading s) (error s).
Definition with_isLoading (b : bool) (s : AuthState) : AuthState :=
  mkAuthState (user s) (profile s) b (error s).
Definition with_error (e : option string) (s : AuthState) : AuthState :=
  mkAuthState (user s) (profile s) (isLoading s) e.

Definition console_error {W} (label : string) (e : Thrown) : M W unit :=
  fun m =>
    (Returned tt,
     mkMachine (store m) (world m) (effects m)
       (console m ++ [ConsoleError label (thrown_message e)]) (history m)).

Definition console_warn {W} (label : string) (msg : option string)
  : M W unit :=
  fun m =>
    (Returned tt,
     mkMachine (store m) (world m) (effects m)
       (console m ++ [ConsoleWarn label msg]) (history m)).

(** [error.message]: reading the property of [undefined] or [null]
    throws a [TypeError]. *)
Definition messageOf {W} (e : Thrown) : M W (option string) :=
  match e with
  | mkThrown message => ret message
  | Nullish => throw typeError
  end.

(** [await] on a backend call: the effect is logged, the world advances,
    and a rejected promise throws at the [await]. *)
Definition await {W A} (eff : Effect) (call : W -> Promise A * W) : M W A :=
  fun m =>
    let (p, w') := call (world m) in
    let m' := mkMachine (store m) w' (effects m ++ [eff]) (console m)
                (history m) in
    match p with
    | Resolved a => (Returned a, m')
    | Rejected e => (Threw e, m')
    end.

(** [await new Promise(resolve => setTimeout(resolve, ms))] *)
Definition sleep {W} (ms : nat) : M W unit :=
  fun m =>
    (Returned tt,
     mkMachine (store m) (world m) (effects m ++ [SetTimeout ms]) (console m)
       (history m)).

(* ===================================================================== *)
(** ** The auth store *)
(* ===================================================================== *)

Section AuthStore.

Context {W : Type} (supabase : Backend W).

(** The state [create] starts from. *)
Definition initialState : AuthState := mkAuthState None None false None.

(** [user.user_metadata?.name || user.email!.split('@')[0]], line 165:
    the metadata name when it is present and not empty, otherwise the
    part of the email before '@'; [None] when the evaluation throws
    because the email is needed and missing. *)
Definition defaultName (u : User) : option string :=
  match user_metadata_name u with
  | Some n =>
      if Js.truthy n then Some n
      else option_map (Js.splitHead "@") (user_email u)
  | None => option_map (Js.splitHead "@") (user_email u)
  end.

(** [fetchProfile], lines 146-190.  The early [return] of the
    not-found branch is the end of that branch. *)
Definition fetchProfile : M W unit :=
  s <- get ;;
  match user s with
  | None => ret tt
  | Some user =>
      try_catch
        (r <- await (CallSelectProfile (user_id user))
                (selectProfile supabase (user_id user)) ;;
         match select_error r with
         | Some error =>
             if pg_code error =? "PGRST116" then
               name <- match defaultName user with
                       | Some n => ret n
                       | None => throw typeError
                       end ;;
               let row := mkProfileInsert (user_id user)
                            (user_email user) name in
               createError <- await (CallInsertProfile row)
                                (insertProfile supabase row) ;;
               match createError with
               | None =>
                   newProfile <- await (CallSelectProfile (user_id user))
                                   (selectProfile supabase (user_id user)) ;;
                   match select_data newProfile with
                   | Some p => set (with_profile (Some p))
                   | None => ret tt
                   end
               | Some _ => ret tt
               end
             else throw (mkThrown (Some (pg_message error)))
         | None => set (with_profile (select_data r))
         end)
        (fun error => console_error "Error fetching profile:" error)
  end.

(** [login], lines 27-64.  The [return] inside the unconfirmed-email
    branch is rendered by the flag [done]: when it is set the rest of
    the [try] block is skipped. *)
Definition login (email password : string) : M W unit :=
  set (fun s => with_error None (with_isLoading true s)) ;;
  try_catch
    (r <- await
            (CallSignIn (Js.toLowerCase (Js.trim email)) password)
            (signInWithPassword supabase
               (Js.toLowerCase (Js.trim email)) password) ;;
     match auth_error r with
     | Some error =>
         done <- (if Js.includes "Email not confirmed" (auth_message error)
                  then
                    userData <- await CallGetUser (getUser supabase) ;;
                    match userData with
                    | Some u =>
                        set (with_user (Some u)) ;;
                        fetchProfile ;;
                        set (with_isLoading false) ;;
                        ret true
                    | None => ret false
                    end
                  else ret false) ;;
         if done : bool then ret tt
         else throw (newError (auth_message error))
     | None =>
         match auth_user r with
         | Some u => set (with_user (Some u)) ;; fetchProfile
         | None => ret tt
         end ;;
         set (with_isLoading false)
     end)
    (fun error =>
       console_error "Login error:" error ;;
       message <- messageOf error ;;
       set (fun s =>
              with_isLoading false
                (with_error
                   (Some (Js.orElse message
                            "Login failed. Please check your credentials."))
                   s))).

(** The machine on which [login] calls [fetchProfile] after an
    unconfirmed-email answer followed by a resolved current user. *)
Definition afterGetUser (email password : string) (u : User) (w : W)
    (m : Machine W) : Machine W :=
  let s1 := with_error None (with_isLoading true (store m)) in
  let s2 := with_user (Some u) s1 in
  mkMachine s2 w
    ((effects m
      ++ [CallSignIn (Js.toLowerCase (Js.trim email)) password])
     ++ [CallGetUser])
    (console m)
    ((history m ++ [s1]) ++ [s2]).

(** [signup], lines 66-134. *)
Definition signup (name email password : string) : M W unit :=
  set (fun s => with_error None (with_isLoading true s)) ;;
  try_catch
    ((if Js.truthy (Js.trim name) then ret tt
      else throw (newError "Name is required")) ;;
     (if Js.truthy (Js.trim email) then ret tt
      else throw (newError "Email is required")) ;;
     (if Nat.ltb (String.length password) 6
      then throw (newError "Password must be at least 6 characters")
      else ret tt) ;;
     let args := mkSignUpArgs (Js.toLowerCase (Js.trim email)) password
                   (Js.trim name) (Js.trim name) None in
     r <- await (CallSignUp args) (signUp supabase args) ;;
     match auth_error r with
     | Some error => throw (newError (auth_message error))
     | None => ret tt
     end ;;
     match auth_user r with
     | Some u =>
         set (with_user (Some u)) ;;
         sleep 1000 ;;
         try_catch fetchProfile
           (fun profileError =>
              console_warn "Profile not found, creating manually:"
                (thrown_message profileError) ;;
              let row := mkProfileInsert (user_id u) (user_email u)
                           (Js.trim name) in
              profileCreateError <- await (CallInsertProfile row)
                                      (insertProfile supabase row) ;;
              match profileCreateError with
              | Some e =>
                  console_warn "Manual profile creation failed:"
                    (Some (pg_message e))
              | None => fetchProfile
              end)
     | None => ret tt
     end ;;
     set (with_isLoading false))
    (fun error =>
       console_error "Signup error:" error ;;
       message <- messageOf error ;;
       set (fun s =>
              with_isLoading false
                (with_error
                   (Some (Js.orElse message
                            "Signup failed. Please try again."))
                   s))).

(** [logout], lines 136-144.  The value [signOut] resolves with is
    discarded. *)
Definition logout : M W unit :=
  try_catch
    (await CallSignOut (signOut supabase) ;;
     set (fun s => with_error None (with_profile None (with_user None s))))
    (fun error =>
       console_error "Logout error:" error ;;
       message <- messageOf error ;;
       set (with_error (Some (Js.orElse message "Logout failed")))).

(** [clearError], lines 192-194. *)
Definition clearError : M W unit := set (with_error None).

(** The session payload of an auth-change notification. *)
Record Session : Type := mkSession { session_user : option User }.

(** The auth-change listener, lines 207-216. *)
Definition onAuthStateChange (event : string) (session : option Session)
  : M W unit :=
  match (if event =? "SIGNED_IN"
         then match session with
              | Some ses => session_user ses
              | None => None
              end
         else None) with
  | Some u => set (with_user (Some u)) ;; fetchProfile
  | None =>
      if event =? "SIGNED_OUT"
      then set (fun s => with_profile None (with_user None s))
      else ret tt
  end.

(** The [partialize] option of the persist middleware: the part of the
    state that is written out. *)
Definition partialize (s : AuthState) : option User * option Profile :=
  (user s, profile s).

(** A restart of the process: the state is created afresh and the
    persisted part is merged into it. *)
Definition rehydrate : M W unit :=
  set (fun s =>
         let (u, p) := partialize s in
         with_profile p (with_user u initialState)).

(** The invariant of section 3: a profile is held only when a user
    is. *)
Definition profileNeedsUser (s : AuthState) : bool :=
  match profile s, user s with
  | Some _, None => false
  | _, _ => true
  end.

(** A machine is sound when the invariant holds of its store and of
    every state the store has been through. *)
Definition sound (m : Machine W) : Prop :=
  profileNeedsUser (store m) = true /\
  Forall (fun s => profileNeedsUser s = true) (history m).

(** Code that keeps a sound machine sound, however it ends. *)
Definition preserves {A} (c : M W A) : Prop :=
  forall m, sound m -> sound (snd (c m)).

(** The entry points through which the store is driven. *)
Inductive Op : Type :=
| OpLogin (email password : string)
| OpSignup (name email password : string)
| OpLogout
| OpFetchProfile
| OpClearError
| OpAuthChange (event : string) (session : option Session)
| OpRestart.

Definition run_op (o : Op) : M W unit :=
  match o with
  | OpLogin e p => login e p
  | OpSignup n e p => signup n e p
  | OpLogout => logout
  | OpFetchProfile => fetchProfile
  | OpClearError => clearError
  | OpAuthChange ev ses => onAuthStateChange ev ses
  | OpRestart => rehydrate
  end.

(** Operations run one after another, each to completion. *)
Fixpoint run_ops (os : list Op) (m : Machine W) : Machine W :=
  match os with
  | [] => m
  | o :: os' => run_ops os' (snd (run_op o m))
  end.

(** The machine at process start, before anything has been persisted. *)
Definition initialMachine (w : W) : Machine W :=
  mkMachine initialState w [] [] [initialState].

(** The argument [signup] passes to [auth.signUp], lines 81-91. *)
Definition signUpArgs (name email password : string) : SignUpArgs :=
  mkSignUpArgs (Js.toLowerCase (Js.trim email)) password
    (Js.trim name) (Js.trim name) None.

(** The machine on which [signup] calls [fetchProfile]: the sign-up has
    answered with the user [u], the user is stored and the delay has
    elapsed. *)
Definition afterSignUp (name email password : string) (u : User) (w : W)
    (m : Machine W) : Machine W :=
  let s1 := with_error None (with_isLoading true (store m)) in
  let s2 := with_user (Some u) s1 in
  mkMachine s2 w
    (((effects m ++ [CallSignUp (signUpArgs name email password)])
      ++ [SetTimeout 1000]))
    (console m)
    ((history m ++ [s1]) ++ [s2]).

(** The operations that end a session: [logout] and the signed-out
    notification. *)
Definition endsSession (o : Op) : bool :=
  match o with
  | OpLogout => true
  | OpAuthChange event _ => event =? "SIGNED_OUT"
  | _ => false
  end.

(** A property of the store's data that code keeps once it holds. *)
Definition keeps {A} (P : AuthState -> Prop) (c : M W A) : Prop :=
  forall m, P (store m) -> P (store (snd (c m))).

(** The requests that concern the profile row with id [i]: a query of
    that row or an insert of a row with that id. *)
Definition onProfileRow (i : string) (e : Effect) : bool :=
  match e with
  | CallSelectProfile j => j =? i
  | CallInsertProfile row => insert_id row =? i
  | _ => false
  end.

(** The message [signup] fails with before contacting the backend, lines
    71-79; [None] when the three checks pass. *)
Definition validationError (name email password : string) : option string :=
  if negb (Js.truthy (Js.trim name)) then Some "Name is required"
  else if negb (Js.truthy (Js.trim email)) then Some "Email is required"
  else if Nat.ltb (String.length password) 6
       then Some "Password must be at least 6 characters"
       else None.

(** How the [try] block of [login] or [signup] ends: with the user the
    backend gave, with no user and no error, or with a thrown value that
    the [catch] block receives. *)
Inductive Attempt : Type :=
| SignedIn (u : User)
| NoUser
| Failed (e : Thrown).

(** The end of the [try] block of [login], lines 30-56, read off the
    backend's answers. *)
Definition loginAttempt (email password : string) (w : W) : Attempt :=
  match signInWithPassword supabase (Js.toLowerCase (Js.trim email))
          password w with
  | (Rejected e, _) => Failed e
  | (Resolved r, w1) =>
      match auth_error r with
      | Some error =>
          if Js.includes "Email not confirmed" (auth_message error)
          then
            match getUser supabase w1 with
            | (Rejected e, _) => Failed e
            | (Resolved (Some u), _) => SignedIn u
            | (Resolved None, _) => Failed (newError (auth_message error))
            end
          else Failed (newError (auth_message error))
      | None =>
          match auth_user r with
          | Some u => SignedIn u
          | None => NoUser
          end
      end
  end.

(** The end of the [try] block of [signup], lines 69-126, read off the
    field checks and the backend's answer. *)
Definition signupAttempt (name email password : string) (w : W) : Attempt :=
  match validationError name email password with
  | Some msg => Failed (newError msg)
  | None =>
      match signUp supabase (signUpArgs name email password) w with
      | (Rejected e, _) => Failed e
      | (Resolved r, _) =>
          match auth_error r with
          | Some error => Failed (newError (auth_message error))
          | None =>
              match auth_user r with
              | Some u => SignedIn u
              | None => NoUser
              end
          end
      end
  end.

(** The auth calls of the backend never reject with [undefined] or
    [null]. *)
Definition rejectsWithValues : Prop :=
  (forall email password w,
      fst (signInWithPassword supabase email password w)
      <> Rejected Nullish) /\
  (forall args w, fst (signUp supabase args w) <> Rejected Nullish) /\
  (forall w, fst (signOut supabase w) <> Rejected Nullish) /\
  (forall w, fst (getUser supabase w) <> Rejected Nullish).

(** *** [fetchProfile] around its first [await]

    An [async] function is suspended at an [await] and other callbacks
    of the event loop may run before it is resumed.  The two halves of
    [fetchProfile] around its first [await] (line 151) are given apart,
    so that a run can place another operation between them. *)

(** What an [await] resumes with once the promise has settled. *)
Definition settle {A} (p : Promise A) : M W A :=
  match p with
  | Resolved a => ret a
  | Rejected e => throw e
  end.

(** [fetchProfile] up to its first [await]: the user is read from the
    store (line 147) and the query is under way; the result is the user
    the function holds on to and the pending answer.  [None] when there
    is no user and [fetchProfile] has returned. *)
Definition fetchProfile_suspend
  : M W (option (User * Promise SelectResponse)) :=
  s <- get ;;
  match user s with
  | None => ret None
  | Some user =>
      fun m =>
        let (p, w') := selectProfile supabase (user_id user) (world m) in
        (Returned (Some (user, p)),
         mkMachine (store m) w'
           (effects m ++ [CallSelectProfile (user_id user)])
           (console m) (history m))
  end.

(** [fetchProfile] from the point where its first [await] resumes with
    the settled answer, lines 151-189. *)
Definition fetchProfile_resume (user : User)
    (answer : Promise SelectResponse) : M W unit :=
  try_catch
    (r <- settle answer ;;
     match select_error r with
     | Some error =>
         if pg_code error =? "PGRST116" then
           name <- match defaultName user with
                   | Some n => ret n
                   | None => throw typeError
                   end ;;
           let row := mkProfileInsert (user_id user)
                        (user_email user) name in
           createError <- await (CallInsertProfile row)
                            (insertProfile supabase row) ;;
           match createError with
           | None =>
               newProfile <- await (CallSelectProfile (user_id user))
                               (selectProfile supabase (user_id user)) ;;
               match select_data newProfile with
               | Some p => set (with_profile (Some p))
               | None => ret tt
               end
           | Some _ => ret tt
           end
         else throw (mkThrown (Some (pg_message error)))
     | None => set (with_profile (select_data r))
     end)
    (fun error => console_error "Error fetching profile:" error).

End AuthStore.


(* ===================================================================== *)
(** ** The team roster of [TeamPage] *)
(* ===================================================================== *)

Module TeamPage.

Record TeamMember : Type := mkTeamMember {
  id : string;
  name : string;
  email : string;
  avatar_url : option string;
  role : string;
  joined_at : string;
  last_active : option string
}.

(** The [user:profiles (...)] part of a joined membership row. *)
Record MemberProfile : Type := mkMemberProfile {
  mp_id : string;
  mp_name : string;
  mp_email : string;
  mp_avatar_url : option string
}.

(** A row of the [project_members] query ([pm] in the source); the
    joined project is not read by the aggregation. *)
Record MemberRow : Type := mkMemberRow {
  pm_role : string;
  pm_created_at : string;
  pm_user : option MemberProfile
}.

(** A JavaScript [Map<string, TeamMember>]: entries in the order of
    first insertion of their key. *)
Definition JsMap : Type := list (string * TeamMember).

Fixpoint map_get (k : string) (m : JsMap) : option TeamMember :=
  match m with
  | [] => None
  | (k', v) :: m' => if k' =? k then Some v else map_get k m'
  end.

(** [m.set(k, v)]: an existing key keeps its place. *)
Fixpoint map_set (k : string) (v : TeamMember) (m : JsMap) : JsMap :=
  match m with
  | [] => [(k, v)]
  | (k', v') :: m' =>
      if k' =? k then (k, v) :: m' else (k', v') :: map_set k v m'
  end.

(** [Array.from(m.values())] *)
Definition map_values (m : JsMap) : list TeamMember := map snd m.

(** The entry built for the current user, lines 77-85. *)
Definition currentMember (user : User) (profile : Profile) : TeamMember :=
  mkTeamMember (user_id user) (profile_name profile)
    (profile_email profile) (profile_avatar_url profile) "owner"
    (profile_created_at profile) (Some "now").

(** The entry built from a membership row, lines 93-101; [coin] is the
    outcome of [Math.random() > 0.5]. *)
Definition rowMember (pm : MemberRow) (pu : MemberProfile) (coin : bool)
  : TeamMember :=
  mkTeamMember (mp_id pu) (mp_name pu) (mp_email pu) (mp_avatar_url pu)
    (pm_role pm) (pm_created_at pm)
    (Some (if coin then "online" else "2 hours ago")).

Definition isNone {A} (o : option A) : bool :=
  match o with None => true | Some _ => false end.

(** The body of the [forEach] callback, lines 90-103.  The state is the
    map together with the number of random draws made so far; [random]
    gives the outcome of each draw. *)
Definition addRow (user : User) (random : nat -> bool)
    (acc : JsMap * nat) (pm : MemberRow) : JsMap * nat :=
  let (membersMap, draws) := acc in
  match pm_user pm with
  | Some pu =>
      if negb (mp_id pu =? user_id user) then
        let existingMember := map_get (mp_id pu) membersMap in
        if isNone existingMember || (pm_role pm =? "owner")
           || (pm_role pm =? "admin")
        then (map_set (mp_id pu) (rowMember pm pu (random draws))
                membersMap, S draws)
        else acc
      else acc
  | None => acc
  end.

(** Lines 73-104: the map after the current user and all rows have been
    processed.  [projectMembers] is [None] when the query gave [null]. *)
Definition membersMap (user : User) (profile : option Profile)
    (projectMembers : option (list MemberRow)) (random : nat -> bool)
  : JsMap :=
  let start : JsMap :=
    match profile with
    | Some p => [(user_id user, currentMember user p)]
    | None => []
    end in
  match projectMembers with
  | Some rows => fst (fold_left (addRow user random) rows (start, 0))
  | None => start
  end.

(** The component state [fetchTeamMembers] writes. *)
Record PageState : Type := mkPageState {
  teamMembers : list TeamMember;
  pageLoading : bool
}.

(** [{ data: projectMembers, error }] of the membership query. *)
Record MembersResponse : Type := mkMembersResponse {
  members_data : option (list MemberRow);
  members_error : option PostgrestError
}.

(** [fetchTeamMembers], lines 44-112, given the outcome of the
    membership query and the random draws. *)
Definition fetchTeamMembers (user : option User) (profile : option Profile)
    (query : Promise MembersResponse) (random : nat -> bool)
    (st : PageState) : PageState :=
  match user with
  | None => st
  | Some u =>
      match query with
      | Resolved r =>
          match members_error r with
          | Some _ => mkPageState (teamMembers st) false
          | None =>
              mkPageState
                (map_values (membersMap u profile (members_data r) random))
                false
          end
      | Rejected _ => mkPageState (teamMembers st) false
      end
  end.

(** *** Reading the input rows *)

Definition privileged (pm : MemberRow) : bool :=
  (pm_role pm =? "owner") || (pm_role pm =? "admin").

(** The rows that carry a member with id [k]. *)
Definition rowsOf (k : string) (rows : list MemberRow) : list MemberRow :=
  filter (fun pm => match pm_user pm with
                    | Some pu => mp_id pu =? k
                    | None => false
                    end) rows.

(** The row that decides the entry of [k]: the last owner-or-admin row
    of [k] when there is one, the first row of [k] otherwise. *)
Definition decidingRow (k : string) (rows : list MemberRow)
  : option MemberRow :=
  match find privileged (rev (rowsOf k rows)) with
  | Some pm => Some pm
  | None => hd_error (rowsOf k rows)
  end.

(** *** The rest of the page *)

(** The predicate of [filteredMembers], lines 158-159. *)
Definition matchesQuery (searchQuery : string) (member : TeamMember)
  : bool :=
  Js.includes (Js.toLowerCase searchQuery) (Js.toLowerCase (name member))
  || Js.includes (Js.toLowerCase searchQuery)
       (Js.toLowerCase (email member)).

(** [filteredMembers], lines 157-160. *)
Definition filteredMembers (teamMembers : list TeamMember)
    (searchQuery : string) : list TeamMember :=
  filter (matchesQuery searchQuery) teamMembers.

(** What the member list area shows, lines 208-309. *)
Inductive ListView : Type :=
| Spinner
| EmptyState (title hint : string)
| Grid (members : list TeamMember).

Definition listView (isLoading : bool) (teamMembers : list TeamMember)
    (searchQuery : string) : ListView :=
  if isLoading then Spinner
  else
    match filteredMembers teamMembers searchQuery with
    | [] =>
        if Js.truthy searchQuery
        then EmptyState "No members found"
               "Try adjusting your search terms."
        else EmptyState "No team members yet"
               "Invite team members to start collaborating on projects."
    | members => Grid members
    end.

(** The task counters of a member card.  The task type belongs to the
    task store, which is not part of the sources: the two fields the
    page reads are taken as parameters. *)
Section Tasks.

Variable Task : Type.
Variable assignee_id : Task -> option string.
Variable status : Task -> string.

Definition assignedTo (memberId : string) (task : Task) : bool :=
  match assignee_id task with
  | Some a => a =? memberId
  | None => false
  end.

(** [getTasksForMember], lines 134-136. *)
Definition getTasksForMember (tasks : list Task) (memberId : string)
  : list Task :=
  filter (assignedTo memberId) tasks.

(** [getCompletedTasksForMember], lines 138-140. *)
Definition getCompletedTasksForMember (tasks : list Task)
    (memberId : string) : list Task :=
  filter (fun task => assignedTo memberId task && (status task =? "done"))
    tasks.

End Tasks.

(** The state [handleInviteMember] reads and writes, with the messages
    shown by [alert]. *)
Record InviteState : Type := mkInviteState {
  inviteEmail : string;
  inviteRole : string;
  showInviteModal : bool;
  inviteLoading : bool;
  alerts : list string
}.

(** [handleInviteMember], lines 114-132. *)
Definition handleInviteMember (st : InviteState) : InviteState :=
  if negb (Js.truthy (Js.trim (inviteEmail st))) then st
  else
    mkInviteState "" (inviteRole st) false false
      (alerts st ++ [String.append "Invitation sent to " (inviteEmail st)]).

(** The [disabled] attribute of the send button, line 361. *)
Definition sendDisabled (st : InviteState) : bool :=
  negb (Js.truthy (Js.trim (inviteEmail st))) || inviteLoading st.

(** *** Reading the roster *)

(** The ids of the members the rows carry, other than the current
    user's, in row order. *)
Definition foreignIds (uid : string) (rows : list MemberRow)
  : list string :=
  flat_map (fun pm => match pm_user pm with
                      | Some pu =>
                          if mp_id pu =? uid then [] else [mp_id pu]
                      | None => []
                      end) rows.

Definition seenIn (k : string) (seen : list string) : bool :=
  existsb (String.eqb k) seen.

(** The ids of [l] not yet in [seen], each at its first occurrence. *)
Fixpoint firstOccurrences (seen l : list string) : list string :=
  match l with
  | [] => []
  | k :: l' =>
      if seenIn k seen then firstOccurrences seen l'
      else k :: firstOccurrences (k :: seen) l'
  end.

End TeamPage.

(* ===================================================================== *)
(** ** Scripted backends and sample runs *)
(* ===================================================================== *)

Module Samples.

(** A backend that answers from a script.  The world counts the profile
    queries made so far: the n-th query gets the n-th scripted answer,
    and the promise rejects once the script is exhausted. *)
Record Script : Type := mkScript {
  on_signIn : Promise AuthResponse;
  on_signUp : Promise AuthResponse;
  on_signOut : Promise (option AuthError);
  on_getUser : Promise (option User);
  on_select : list (Promise SelectResponse);
  on_insert : Promise (option PostgrestError)
}.

Definition offline {A} : Promise A :=
  Rejected (mkThrown (Some "Failed to fetch")).

Definition scripted (sc : Script) : Backend nat :=
  mkBackend nat
    (fun _ _ w => (on_signIn sc, w))
    (fun _ w => (on_signUp sc, w))
    (fun w => (on_signOut sc, w))
    (fun w => (on_getUser sc, w))
    (fun _ w => (nth w (on_select sc) offline, S w))
    (fun _ w => (on_insert sc, w)).

Definition alice : User :=
  mkUser "u1" (Some "alice@x.com") None.

Definition aliceProfile : Profile :=
  mkProfile "u1" "alice@x.com" "alice" None "2024-01-01".

Definition jane : User :=
  mkUser "u2" (Some "jane@x.com") (Some "Jane").

Definition noRows : PostgrestError :=
  mkPostgrestError "PGRST116" "JSON object requested, multiple (or no) rows returned".

Definition denied : PostgrestError :=
  mkPostgrestError "42501" "permission denied for table profiles".

Definition found (p : Profile) : Promise SelectResponse :=
  Resolved (mkSelectResponse (Some p) None).

Definition failed (e : PostgrestError) : Promise SelectResponse :=
  Resolved (mkSelectResponse None (Some e)).

(** A machine whose store holds [s] and that has done nothing yet. *)
Definition machineAt (s : AuthState) : Machine nat :=
  mkMachine s 0 [] [] [s].

(** Sign-in is refused with wrong credentials. *)
Definition wrongPassword : Script :=
  mkScript
    (Resolved (mkAuthResponse None
                 (Some (mkAuthError "Invalid login credentials"))))
    offline offline offline [] offline.

(** A login with the wrong password while a session is held. *)
Definition loginWithSession : Machine nat :=
  snd (login (scripted wrongPassword) "alice@x.com" "wrong"
         (machineAt (mkAuthState (Some alice) (Some aliceProfile)
                       false None))).

(** Sign-in answers that the email is not confirmed, the current user
    resolves, and the profile row exists. *)
Definition unconfirmed : Script :=
  mkScript
    (Resolved (mkAuthResponse None
                 (Some (mkAuthError "Email not confirmed"))))
    offline offline (Resolved (Some alice)) [found aliceProfile] offline.

(** Sign-up succeeds, and the profile query is refused by the
    database. *)
Definition signupDenied : Script :=
  mkScript offline
    (Resolved (mkAuthResponse (Some jane) None))
    offline offline [failed denied] offline.

Definition signupJane : Machine nat :=
  snd (signup (scripted signupDenied) "Jane" "jane@x.com" "secret1"
         (initialMachine 0)).

(** The profile row is absent and the insert is refused. *)
Definition insertRefused : Script :=
  mkScript offline offline offline offline
    [failed noRows; found aliceProfile] (Resolved (Some denied)).

Definition fetchWithInsertRefused : Machine nat :=
  snd (fetchProfile (scripted insertRefused)
         (machineAt (mkAuthState (Some alice) None false None))).

(** The profile row is absent, the insert succeeds, and the second
    query finds the row. *)
Definition selfHealing : Script :=
  mkScript offline offline offline offline
    [failed noRows; found aliceProfile] (Resolved None).

(** Membership rows for the roster. *)
Definition memberRow (uid role : string) : TeamPage.MemberRow :=
  TeamPage.mkMemberRow role "2024-02-02"
    (Some (TeamPage.mkMemberProfile uid "Bob" "bob@x.com" None)).

(** A user who is owner in one project and admin in another. *)
Definition ownerThenAdmin : list TeamPage.MemberRow :=
  [memberRow "u9" "owner"; memberRow "u9" "admin"].

(** The rows of the specification's example, for the current user
    "u1". *)
Definition ownRows : list TeamPage.MemberRow :=
  [memberRow "u1" "member"; memberRow "u1" "admin"].

Definition heads : nat -> bool := fun _ => true.

(** Sign-in succeeds and the profile row exists. *)
Definition signedIn : Script :=
  mkScript (Resolved (mkAuthResponse (Some alice) None))
    offline offline offline [found aliceProfile] offline.

(** Sign-in answers that the email is not confirmed and no current user
    can be resolved. *)
Definition unconfirmedNoUser : Script :=
  mkScript
    (Resolved (mkAuthResponse None
                 (Some (mkAuthError "Email not confirmed"))))
    offline offline (Resolved None) [] offline.

(** Sign-up is refused because the address is taken. *)
Definition signupTaken : Script :=
  mkScript offline
    (Resolved (mkAuthResponse None
                 (Some (mkAuthError "User already registered"))))
    offline offline [] offline.

(** Sign-out succeeds. *)
Definition signOutOk : Script :=
  mkScript offline offline (Resolved None) offline [] offline.

Definition aliceSession : Machine nat :=
  machineAt (mkAuthState (Some alice) (Some aliceProfile) false None).

Definition janeSession : Machine nat :=
  machineAt (mkAuthState (Some jane) None false None).

Definition bob : TeamPage.TeamMember :=
  TeamPage.mkTeamMember "u9" "Bob" "bob@x.com" None "member" "2024-02-02"
    (Some "online").

Definition inviteForm : TeamPage.InviteState :=
  TeamPage.mkInviteState "Carol@x.com " "member" true false [].

(** Sign-out is refused: the call resolves with an error object. *)
Definition signOutRefused : Script :=
  mkScript offline offline
    (Resolved (Some (mkAuthError "Network request failed")))
    offline [] offline.

(** A logout whose sign-out is refused, while a session is held. *)
Definition logoutRefused : Outcome unit * Machine nat :=
  logout (scripted signOutRefused) aliceSession.

(** A signed-out notification arrives while [fetchProfile] awaits its
    query: [fetchProfile] runs up to its first [await], the listener
    runs, and [fetchProfile] resumes with the answer of the query. *)
Definition signedOutDuringFetch : Machine nat :=
  match fetchProfile_suspend (scripted signedIn)
          (machineAt (mkAuthState (Some alice) None false None)) with
  | (Returned (Some (u, answer)), m1) =>
      snd (fetchProfile_resume (scripted signedIn) u answer
             (snd (onAuthStateChange (scripted signedIn) "SIGNED_OUT" None
                     m1)))
  | (_, m1) => m1
  end.

End Samples.

(* ===================================================================== *)
(** ** Facts about the string primitives *)
(* ===================================================================== *)

Module JsFacts.

Import Js.

Ltac each_char c :=
  destruct c as [[] [] [] [] [] [] [] []]; reflexivity.

Lemma lowerChar_idem (c : ascii) : lowerChar (lowerChar c) = lowerChar c.
Proof. each_char c. Qed.

Lemma isWhitespace_lowerChar (c : ascii) :
  isWhitespace (lowerChar c) = isWhitespace c.
Proof. each_char c. Qed.

Lemma toLowerCase_idem (s : string) :
  toLowerCase (toLowerCase s) = toLowerCase s.
Proof.
  induction s as [|c s IH]; cbn; [reflexivity|].
  rewrite lowerChar_idem, IH. reflexivity.
Qed.

Lemma truthy_toLowerCase (s : string) : truthy (toLowerCase s) = truthy s.
Proof. destruct s; reflexivity. Qed.

Lemma trimStart_idem (s : string) : trimStart (trimStart s) = trimStart s.
Proof.
  induction s as [|c s IH]; cbn; [reflexivity|].
  destruct (isWhitespace c) eqn:E; [exact IH|]. cbn. rewrite E. reflexivity.
Qed.

Lemma trimEnd_cons (c : ascii) (s : string) :
  trimEnd (String c s)
  = match trimEnd s with
    | EmptyString =>
        if isWhitespace c then EmptyString else String c EmptyString
    | t => String c t
    end.
Proof. reflexivity. Qed.

Lemma trimEnd_idem (s : string) : trimEnd (trimEnd s) = trimEnd s.
Proof.
  induction s as [|c s IH]; [reflexivity|].
  rewrite trimEnd_cons.
  destruct (trimEnd s) as [|d t] eqn:Et.
  - destruct (isWhitespace c) eqn:E; [reflexivity|].
    rewrite trimEnd_cons. cbn. rewrite E. reflexivity.
  - rewrite trimEnd_cons, IH. reflexivity.
Qed.

(** Trimming the end of a string that does not start with whitespace
    gives a string that does not start with whitespace. *)
Lemma trimStart_trimEnd (s : string) :
  trimStart s = s -> trimStart (trimEnd s) = trimEnd s.
Proof.
  destruct s as [|c s]; cbn; [reflexivity|].
  destruct (isWhitespace c) eqn:E.
  - intros H. exfalso.
    assert (Hlen : String.length (trimStart s) <= String.length s).
    { clear. induction s as [|d s IH]; cbn; [lia|].
      destruct (isWhitespace d); cbn; lia. }
    rewrite H in Hlen. cbn in Hlen. lia.
  - intros _. destruct (trimEnd s); cbn; rewrite E; reflexivity.
Qed.

Lemma trim_idem (s : string) : trim (trim s) = trim s.
Proof.
  unfold trim.
  rewrite (trimStart_trimEnd (trimStart s) (trimStart_idem s)).
  apply trimEnd_idem.
Qed.

Lemma trimStart_toLowerCase (s : string) :
  trimStart (toLowerCase s) = toLowerCase (trimStart s).
Proof.
  induction s as [|c s IH]; cbn; [reflexivity|].
  rewrite isWhitespace_lowerChar.
  destruct (isWhitespace c); [exact IH|reflexivity].
Qed.

Lemma trimEnd_toLowerCase (s : string) :
  trimEnd (toLowerCase s) = toLowerCase (trimEnd s).
Proof.
  induction s as [|c s IH]; cbn; [reflexivity|].
  rewrite IH, isWhitespace_lowerChar.
  destruct (trimEnd s); cbn; [|reflexivity].
  destruct (isWhitespace c); reflexivity.
Qed.

Lemma trim_toLowerCase (s : string) :
  trim (toLowerCase s) = toLowerCase (trim s).
Proof.
  unfold trim. rewrite trimStart_toLowerCase. apply trimEnd_toLowerCase.
Qed.

(** An address in normal form is its own normal form. *)
Lemma normalise_idem (s : string) :
  toLowerCase (trim (toLowerCase (trim s))) = toLowerCase (trim s).
Proof.
  rewrite trim_toLowerCase, trim_idem. apply toLowerCase_idem.
Qed.

Lemma prefix_refl (s : string) : prefix s s = true.
Proof.
  induction s as [|c s IH]; cbn; [reflexivity|].
  destruct (ascii_dec c c); [exact IH|congruence].
Qed.

Lemma includes_empty (s : string) : includes "" s = true.
Proof. destruct s; reflexivity. Qed.

Lemma includes_refl (s : string) : includes s s = true.
Proof.
  destruct s as [|c s]; [reflexivity|].
  cbn [includes]. rewrite prefix_refl. reflexivity.
Qed.

End JsFacts.

(* ===================================================================== *)
(** ** Properties of the auth store *)
(* ===================================================================== *)

(** One step of symbolic execution: case analysis on the innermost
    backend answer or test the code branches on. *)
Ltac step :=
  match goal with
  | |- context [match ?x with _ => _ end] =>
      lazymatch x with
      | context [match _ with _ => _ end] => fail
      | _ => destruct x eqn:?
      end
  end.

Ltac run := cbn; repeat (step; cbn).

Section AuthStoreFacts.

Context {W : Type} (supabase : Backend W).

(** What a call of [fetchProfile] can do to the machine: it returns, and
    either the store is untouched, or a user is present and the store
    has received exactly one [set] of the profile field. *)
Lemma fetchProfile_summary (m : Machine W) :
  exists m',
    fetchProfile supabase m = (Returned tt, m') /\
    ((store m' = store m /\ history m' = history m) \/
     (user (store m) <> None /\
      exists p, store m' = with_profile p (store m) /\
                history m' = history m ++ [store m'])).
Proof.
  unfold fetchProfile, bind, try_catch, get, await, set, ret, throw,
    console_error.
  destruct (user (store m)) as [u|] eqn:Hu; [|eauto].
  run; eexists; (split; [reflexivity|]); cbn;
    first [ left; split; reflexivity
          | right; split; [congruence | eexists; split; reflexivity] ].
Qed.

Local Arguments fetchProfile : simpl never.
Local Arguments Js.orElse : simpl never.

(** Symbolic execution through code that calls [fetchProfile]: the call
    is replaced by its summary. *)
Ltac step_call :=
  match goal with
  | |- context [match ?x with _ => _ end] =>
      lazymatch x with
      | context [match _ with _ => _ end] => fail
      | fetchProfile ?b ?m =>
          let m' := fresh "m" in
          let E := fresh "E" in
          let H := fresh "Hfetch" in
          destruct (fetchProfile_summary m) as (m' & E & H);
          rewrite E; cbn in H
      | _ => destruct x eqn:?
      end
  end.

Ltac run_calls := cbn; repeat (step_call; cbn).

Ltac open_summary :=
  repeat match goal with
    | H : (_ /\ _) \/ (_ /\ _) |- _ =>
        let p := fresh "p" in
        let Hs := fresh "Hs" in
        let Hh := fresh "Hh" in
        destruct H as [[Hs Hh] | (_ & p & Hs & Hh)];
        rewrite ?Hs in *; cbn in *
    end.

(** [fetchProfile] with a user present starts by querying that user's
    profile row. *)
Lemma fetchProfile_queries (m : Machine W) (u : User) :
  user (store m) = Some u ->
  exists rest,
    effects (snd (fetchProfile supabase m))
    = effects m ++ CallSelectProfile (user_id u) :: rest.
Proof.
  intros Hu.
  unfold fetchProfile, bind, try_catch, get, await, set, ret, throw,
    console_error.
  rewrite Hu.
  run; rewrite <- ?app_assoc; cbn; eexists; reflexivity.
Qed.

(** The [catch] around a call of [fetchProfile] never runs. *)
Lemma fetchProfile_catch_dead (handler : Thrown -> M W unit)
    (m : Machine W) :
  try_catch (fetchProfile supabase) handler m = fetchProfile supabase m.
Proof.
  unfold try_catch.
  destruct (fetchProfile_summary m) as (m' & E & _).
  rewrite E. reflexivity.
Qed.

(** The two halves of [fetchProfile] around its first [await], run one
    after the other, are [fetchProfile]. *)
Lemma fetchProfile_split (m : Machine W) :
  fetchProfile supabase m
  = bind (fetchProfile_suspend supabase)
      (fun pending =>
         match pending with
         | Some (u, answer) => fetchProfile_resume supabase u answer
         | None => ret tt
         end) m.
Proof.
  unfold fetchProfile, fetchProfile_suspend, fetchProfile_resume, bind,
    try_catch, get, await, settle, ret, throw.
  destruct (user (store m)) as [u|]; [|reflexivity].
  destruct (selectProfile supabase (user_id u) (world m)) as [[r|e] w'];
    reflexivity.
Qed.

(** C9.  Every execution of [fetchProfile] returns, and whatever the
    backend answered (query error, no row, failed creation, success or
    a rejected promise) the [error] field of the store is what it was
    before the call; so are [user] and [isLoading]. *)
Theorem fetchProfile_never_writes_error (m : Machine W) :
  exists m',
    fetchProfile supabase m = (Returned tt, m') /\
    error (store m') = error (store m) /\
    user (store m') = user (store m) /\
    isLoading (store m') = isLoading (store m).
Proof.
  destruct (fetchProfile_summary m) as (m' & E & H).
  exists m'. split; [exact E|].
  destruct H as [[Hs _] | (_ & p & Hs & _)]; rewrite Hs; cbn; auto.
Qed.

(** C1 (amended).  For every call of [login] in which no awaited
    backend promise rejects with [undefined] or [null], [login] returns
    to its caller without throwing and ends with [isLoading = false].
    The final state is either [error = null] with [user] set to the user
    the backend gave (or, when the backend answered with neither an
    error nor a user, [user] left as it was), or [user] left as it was
    before the call with [error] set to the failure message: the message
    of the backend's error or of the rejection, or the default text when
    that message is missing or empty.  (When a promise rejects with
    [undefined] or [null], reading its message in the [catch] block
    throws: the call throws and [isLoading] stays true.) *)
Theorem login_terminal_state (email password : string) (m : Machine W) :
  match loginAttempt supabase email password (world m) with
  | SignedIn u =>
      exists m',
        login supabase email password m = (Returned tt, m') /\
        isLoading (store m') = false /\
        error (store m') = None /\
        user (store m') = Some u
  | NoUser =>
      exists m',
        login supabase email password m = (Returned tt, m') /\
        isLoading (store m') = false /\
        error (store m') = None /\
        user (store m') = user (store m) /\
        profile (store m') = profile (store m)
  | Failed (mkThrown message) =>
      exists m',
        login supabase email password m = (Returned tt, m') /\
        isLoading (store m') = false /\
        error (store m')
        = Some (Js.orElse message
                  "Login failed. Please check your credentials.") /\
        user (store m') = user (store m) /\
        profile (store m') = profile (store m)
  | Failed Nullish =>
      exists m',
        login supabase email password m = (Threw typeError, m') /\
        isLoading (store m') = true /\
        error (store m') = None /\
        user (store m') = user (store m) /\
        profile (store m') = profile (store m)
  end.
Proof.
  unfold loginAttempt, login, bind, try_catch, await, set, ret, throw,
    console_error, messageOf, newError.
  run_calls; open_summary; eexists; repeat split; reflexivity.
Qed.

(** C2.  When the password sign-in answers with an error whose message
    contains "Email not confirmed" and the following [getUser] resolves
    a user, [login] stores that user, runs [fetchProfile] (which starts
    by querying that user's profile row), clears [isLoading] and
    returns: the final state has the resolved user, [isLoading = false]
    and [error = null]. *)
Theorem login_unconfirmed_email_succeeds
    (email password : string) (m : Machine W)
    (data : option User) (err : AuthError) (w1 w2 : W) (u : User) :
  signInWithPassword supabase (Js.toLowerCase (Js.trim email)) password
    (world m) = (Resolved (mkAuthResponse data (Some err)), w1) ->
  Js.includes "Email not confirmed" (auth_message err) = true ->
  getUser supabase w1 = (Resolved (Some u), w2) ->
  exists m2 rest,
    fetchProfile supabase (afterGetUser email password u w2 m)
    = (Returned tt, m2) /\
    effects m2
    = effects (afterGetUser email password u w2 m)
      ++ CallSelectProfile (user_id u) :: rest /\
    login supabase email password m
    = (Returned tt, snd (set (with_isLoading false) m2)) /\
    user (store (snd (login supabase email password m))) = Some u /\
    isLoading (store (snd (login supabase email password m))) = false /\
    error (store (snd (login supabase email password m))) = None.
Proof.
  intros Hsign Hinc Hget.
  destruct (fetchProfile_summary (afterGetUser email password u w2 m))
    as (m2 & E & H).
  destruct (fetchProfile_queries (afterGetUser email password u w2 m) u
              eq_refl) as (rest & Hq).
  rewrite E in Hq; cbn [snd] in Hq.
  assert (Hlogin : login supabase email password m
                   = (Returned tt, snd (set (with_isLoading false) m2))).
  { unfold login, bind, try_catch, await, set, ret, throw.
    cbn. rewrite Hsign. cbn. rewrite Hinc. cbn. rewrite Hget. cbn.
    unfold afterGetUser in E. cbn in E. rewrite E. reflexivity. }
  exists m2, rest.
  repeat split; try assumption; rewrite Hlogin; cbn;
    destruct H as [[Hs _] | (_ & p & Hs & _)]; rewrite ?Hs; reflexivity.
Qed.

(** What [logout] does, by what the sign-out call settles with.  When it
    resolves, whatever it resolves with, [user], [profile] and [error]
    are cleared; when it rejects with a value, [error] is set to its
    message (the default text when that is missing or empty) and [user]
    and [profile] are left as they were; when it rejects with
    [undefined] or [null], [logout] throws and the store is left as it
    was. *)
Lemma logout_outcomes (m : Machine W) :
  match fst (signOut supabase (world m)) with
  | Resolved _ =>
      exists m',
        logout supabase m = (Returned tt, m') /\
        isLoading (store m') = isLoading (store m) /\
        user (store m') = None /\
        profile (store m') = None /\
        error (store m') = None
  | Rejected (mkThrown message) =>
      exists m',
        logout supabase m = (Returned tt, m') /\
        isLoading (store m') = isLoading (store m) /\
        error (store m') = Some (Js.orElse message "Logout failed") /\
        user (store m') = user (store m) /\
        profile (store m') = profile (store m)
  | Rejected Nullish =>
      exists m',
        logout supabase m = (Threw typeError, m') /\
        store m' = store m
  end.
Proof.
  unfold logout, bind, try_catch, await, set, ret, throw, console_error,
    messageOf.
  destruct (signOut supabase (world m)) as [[r|[message|]] w'] eqn:Hout;
    cbn; eexists; repeat split; reflexivity.
Qed.

(** *** The invariant, rule by rule *)

Lemma preserves_ret {A} (a : A) : preserves (W:=W) (ret a).
Proof. intros m H; exact H. Qed.

Lemma preserves_throw {A} (e : Thrown) : preserves (W:=W) (A:=A) (throw e).
Proof. intros m H; exact H. Qed.

Lemma preserves_bind {A B} (c : M W A) (k : A -> M W B) :
  preserves c -> (forall a, preserves (k a)) -> preserves (bind c k).
Proof.
  intros Hc Hk m H. unfold bind. specialize (Hc m H).
  destruct (c m) as [[a|e] m']; cbn in *; [apply Hk; exact Hc|exact Hc].
Qed.

Lemma preserves_try_catch {A} (c : M W A) (h : Thrown -> M W A) :
  preserves c -> (forall e, preserves (h e)) -> preserves (try_catch c h).
Proof.
  intros Hc Hh m H. unfold try_catch. specialize (Hc m H).
  destruct (c m) as [[a|e] m']; cbn in *; [exact Hc|apply Hh; exact Hc].
Qed.

Lemma preserves_await {A} (eff : Effect) (call : W -> Promise A * W) :
  preserves (await eff call).
Proof.
  intros m H. unfold await.
  destruct (call (world m)) as [[a|e] w']; exact H.
Qed.

Lemma preserves_sleep (ms : nat) : preserves (W:=W) (sleep ms).
Proof. intros m H; exact H. Qed.

Lemma preserves_console_error (label : string) (e : Thrown) :
  preserves (W:=W) (console_error label e).
Proof. intros m H; exact H. Qed.

Lemma preserves_console_warn (label : string) (msg : option string) :
  preserves (W:=W) (console_warn label msg).
Proof. intros m H; exact H. Qed.

Lemma preserves_get : preserves (W:=W) get.
Proof. intros m H; exact H. Qed.

Lemma preserves_messageOf (e : Thrown) : preserves (W:=W) (messageOf e).
Proof. intros m H. destruct e; exact H. Qed.

(** A [set] keeps the machine sound when its patch keeps the
    invariant. *)
Lemma preserves_set (patch : AuthState -> AuthState) :
  (forall s, profileNeedsUser s = true ->
             profileNeedsUser (patch s) = true) ->
  preserves (W:=W) (set patch).
Proof.
  intros Hp m [Hs Hh]. split; cbn; [apply Hp; exact Hs|].
  apply Forall_app. split; [exact Hh|].
  constructor; [apply Hp; exact Hs|constructor].
Qed.

(** [fetchProfile] writes a profile only while a user is held. *)
Lemma preserves_fetchProfile : preserves (fetchProfile supabase).
Proof.
  intros m [Hs Hh].
  destruct (fetchProfile_summary m) as (m' & E & H). rewrite E; cbn.
  destruct H as [[Hst Hhi] | (Hu & p & Hst & Hhi)].
  - split; [rewrite Hst|rewrite Hhi]; assumption.
  - assert (Hp : profileNeedsUser (store m') = true).
    { rewrite Hst. unfold profileNeedsUser; cbn.
      destruct (user (store m)); [destruct p; reflexivity|congruence]. }
    split; [exact Hp|]. rewrite Hhi.
    apply Forall_app. split; [exact Hh|]. constructor; [exact Hp|constructor].
Qed.

Ltac patch_ok :=
  let s := fresh "s" in
  intros s; destruct s as [[?|] [?|] ? ?]; cbn; intros; congruence.

Ltac preserve :=
  repeat first
    [ apply preserves_fetchProfile
    | apply preserves_ret
    | apply preserves_throw
    | apply preserves_get
    | apply preserves_messageOf
    | apply preserves_await
    | apply preserves_sleep
    | apply preserves_console_error
    | apply preserves_console_warn
    | apply preserves_set; patch_ok
    | apply preserves_bind; [|intros ?]
    | apply preserves_try_catch; [|intros ?]
    | match goal with
      | |- preserves (match ?x with _ => _ end) => destruct x
      end ].

Lemma preserves_run_op (o : Op) : preserves (run_op supabase o).
Proof.
  destruct o; cbn [run_op];
    unfold login, signup, logout, clearError, onAuthStateChange, rehydrate;
    preserve.
Qed.

(** C6 (amended).  Starting from the initial state and running any
    sequence of login, signup, logout, fetchProfile, clearError,
    auth-change notifications and restarts, each to completion before
    the next begins and against any backend, the store holds a profile
    only if it holds a user: this is so of the final state and of every
    state the store was given on the way. *)
Theorem profile_only_with_user (os : list Op) (w : W) :
  profileNeedsUser (store (run_ops supabase os (initialMachine w))) = true
  /\ Forall (fun s => profileNeedsUser s = true)
       (history (run_ops supabase os (initialMachine w))).
Proof.
  assert (Hgen : forall m, sound m -> sound (run_ops supabase os m)).
  { induction os as [|o os' IH]; intros m Hm; cbn; [exact Hm|].
    apply IH. apply preserves_run_op. exact Hm. }
  apply Hgen. split; cbn; [reflexivity|].
  constructor; [reflexivity|constructor].
Qed.

(** With an email at hand the name is the metadata name or, failing
    that, the part of the email before '@'. *)
Lemma defaultName_with_email (u : User) (e : string) :
  user_email u = Some e ->
  defaultName u
  = Some (Js.orElse (user_metadata_name u) (Js.splitHead "@" e)).
Proof.
  intros He. unfold defaultName, Js.orElse. rewrite He.
  destruct (user_metadata_name u) as [n|]; [|reflexivity].
  destruct (Js.truthy n); reflexivity.
Qed.

(** C4 (amended).  When a user is held for whom the name of line 165 is
    defined (a metadata name that is not empty or, failing that, the part
    of the email before '@') and the profile query answers with the
    no-rows code PGRST116, [fetchProfile] makes exactly one insert
    attempt, with the user's id, email and that name.  If the insert
    reports no error it is followed by exactly one re-fetch, and the
    stored profile becomes the row the re-fetch returns (it is left as it
    was when the re-fetch returns none).  If the insert fails there is no
    re-fetch and the stored profile is left as it was. *)
Theorem fetchProfile_creates_missing_row
    (m : Machine W) (u : User) (name : string)
    (data : option Profile) (err : PostgrestError) (w1 : W) :
  user (store m) = Some u ->
  defaultName u = Some name ->
  selectProfile supabase (user_id u) (world m)
  = (Resolved (mkSelectResponse data (Some err)), w1) ->
  pg_code err = "PGRST116" ->
  exists m',
    fetchProfile supabase m = (Returned tt, m') /\
    match insertProfile supabase
            (mkProfileInsert (user_id u) (user_email u) name) w1 with
    | (Resolved None, w2) =>
        effects m'
        = effects m
          ++ [CallSelectProfile (user_id u);
              CallInsertProfile
                (mkProfileInsert (user_id u) (user_email u) name);
              CallSelectProfile (user_id u)] /\
        profile (store m')
        = match fst (selectProfile supabase (user_id u) w2) with
          | Resolved r =>
              match select_data r with
              | Some p => Some p
              | None => profile (store m)
              end
          | Rejected _ => profile (store m)
          end
    | _ =>
        effects m'
        = effects m
          ++ [CallSelectProfile (user_id u);
              CallInsertProfile
                (mkProfileInsert (user_id u) (user_email u) name)] /\
        profile (store m') = profile (store m)
    end.
Proof.
  intros Hu Hname Hsel Hcode.
  unfold fetchProfile, bind, try_catch, get. rewrite Hu.
  unfold await at 1. rewrite Hsel. cbn [select_error].
  rewrite Hcode. rewrite String.eqb_refl. rewrite Hname.
  unfold await, set, ret, console_error; cbn.
  destruct (insertProfile supabase _ w1) as [[[pe|]|ie] w2]; cbn.
  - eexists; split; [reflexivity|].
    cbn. rewrite <- app_assoc. split; reflexivity.
  - destruct (selectProfile supabase (user_id u) w2) as [[r|se] w3]; cbn.
    + destruct (select_data r); cbn; eexists; (split; [reflexivity|]);
        cbn; rewrite <- !app_assoc; split; reflexivity.
    + eexists; split; [reflexivity|].
      cbn; rewrite <- !app_assoc; split; reflexivity.
  - eexists; split; [reflexivity|].
    cbn. rewrite <- app_assoc. split; reflexivity.
Qed.

(* --------------------------------------------------------------------- *)
(** *** Further properties of login *)

(** X1.  [login] reads the address only through its normal form: logging in
    with an address or with the same address trimmed and lower-cased is
    the same run. *)
Theorem login_normalises_email (email password : string) (m : Machine W) :
  login supabase email password m
  = login supabase (Js.toLowerCase (Js.trim email)) password m.
Proof.
  unfold login. rewrite JsFacts.normalise_idem. reflexivity.
Qed.

(** X2.  When the sign-in answers with a user and no error, [login] stores
    that user, fetches the user's profile and ends with [error = null]
    and [isLoading = false]; after the sign-in call the backend is asked
    first for that user's profile row. *)
Theorem login_with_user_succeeds (email password : string)
    (m : Machine W) (u : User) (w1 : W) :
  signInWithPassword supabase (Js.toLowerCase (Js.trim email)) password
    (world m) = (Resolved (mkAuthResponse (Some u) None), w1) ->
  exists m' rest,
    login supabase email password m = (Returned tt, m') /\
    user (store m') = Some u /\
    error (store m') = None /\
    isLoading (store m') = false /\
    effects m'
    = effects m
      ++ CallSignIn (Js.toLowerCase (Js.trim email)) password
         :: CallSelectProfile (user_id u) :: rest.
Proof.
  intros Hsign.
  unfold login, bind, try_catch, await, set, ret, throw. cbn.
  rewrite Hsign. cbn.
  match goal with
  | |- context [fetchProfile supabase ?m1] =>
      destruct (fetchProfile_summary m1) as (m2 & E & H);
      destruct (fetchProfile_queries m1 u eq_refl) as (rest & Hq);
      rewrite E in Hq |- *; cbn in Hq, H
  end.
  exists (snd (set (with_isLoading false) m2)), rest. cbn.
  split; [reflexivity|].
  rewrite Hq, <- app_assoc. cbn.
  destruct H as [[Hs _] | (_ & p & Hs & _)]; rewrite Hs; cbn; auto.
Qed.

(** X3.  When the sign-in answers with an error other than "Email not
    confirmed", [login] makes no further call and surfaces the backend's
    message as [error] (the default text when the message is empty);
    [user] and [profile] are left as they were. *)
Theorem login_surfaces_backend_error (email password : string)
    (m : Machine W) (data : option User) (err : AuthError) (w1 : W) :
  signInWithPassword supabase (Js.toLowerCase (Js.trim email)) password
    (world m) = (Resolved (mkAuthResponse data (Some err)), w1) ->
  Js.includes "Email not confirmed" (auth_message err) = false ->
  exists m',
    login supabase email password m = (Returned tt, m') /\
    store m'
    = mkAuthState (user (store m)) (profile (store m)) false
        (Some (Js.orElse (Some (auth_message err))
                 "Login failed. Please check your credentials.")) /\
    effects m'
    = effects m ++ [CallSignIn (Js.toLowerCase (Js.trim email)) password] /\
    world m' = w1.
Proof.
  intros Hsign Hinc.
  unfold login, bind, try_catch, await, set, ret, throw, console_error.
  cbn. rewrite Hsign. cbn. rewrite Hinc. cbn.
  eexists. repeat split.
Qed.

(** X4.  When the sign-in answers "Email not confirmed" but no current user
    can be resolved, [login] fails with that message: nothing is stored
    and no profile is fetched. *)
Theorem login_unconfirmed_without_user (email password : string)
    (m : Machine W) (data : option User) (err : AuthError) (w1 w2 : W) :
  signInWithPassword supabase (Js.toLowerCase (Js.trim email)) password
    (world m) = (Resolved (mkAuthResponse data (Some err)), w1) ->
  Js.includes "Email not confirmed" (auth_message err) = true ->
  getUser supabase w1 = (Resolved None, w2) ->
  exists m',
    login supabase email password m = (Returned tt, m') /\
    store m'
    = mkAuthState (user (store m)) (profile (store m)) false
        (Some (Js.orElse (Some (auth_message err))
                 "Login failed. Please check your credentials.")) /\
    effects m'
    = effects m
      ++ [CallSignIn (Js.toLowerCase (Js.trim email)) password;
          CallGetUser].
Proof.
  intros Hsign Hinc Hget.
  unfold login, bind, try_catch, await, set, ret, throw, console_error.
  cbn. rewrite Hsign. cbn. rewrite Hinc. cbn. rewrite Hget. cbn.
  eexists. rewrite <- app_assoc. repeat split.
Qed.

(* --------------------------------------------------------------------- *)
(** *** Properties of signup *)

(** X5.  [signup] with an invalid field never contacts the backend: when the
    trimmed name is empty, the trimmed email is empty or the password has
    fewer than six characters, it ends with the message of the first
    failed check as [error] and [isLoading = false]; no request is made
    and [user] and [profile] are left as they were. *)
Theorem signup_rejects_invalid_input (name email password msg : string)
    (m : Machine W) :
  validationError name email password = Some msg ->
  exists m',
    signup supabase name email password m = (Returned tt, m') /\
    store m'
    = mkAuthState (user (store m)) (profile (store m)) false (Some msg) /\
    effects m' = effects m /\
    world m' = world m.
Proof.
  unfold validationError. intros Hv.
  unfold signup, bind, try_catch, await, set, ret, throw, console_error.
  destruct (Js.truthy (Js.trim name)) eqn:En; cbn [negb] in Hv.
  - destruct (Js.truthy (Js.trim email)) eqn:Ee; cbn [negb] in Hv.
    + destruct (Nat.ltb (String.length password) 6) eqn:Ep;
        [|discriminate].
      injection Hv as <-. cbn. eexists. repeat split.
    + injection Hv as <-. cbn. eexists. repeat split.
  - injection Hv as <-. cbn. eexists. repeat split.
Qed.

(** X6.  For every call of [signup] in which the sign-up promise does
    not reject with [undefined] or [null], [signup] returns without
    throwing and ends with [isLoading = false].  The final state is
    either [error = null] with [user] set to the user the backend gave
    (or left as it was, when the backend answered with neither an error
    nor a user), or [user] and [profile] left as they were with [error]
    set to the failure message: the message of the failed field check,
    of the backend's error or of the rejection, or the default text when
    that message is missing or empty.  (When the promise rejects with
    [undefined] or [null], the call throws and [isLoading] stays
    true.) *)
Theorem signup_terminal_state (name email password : string)
    (m : Machine W) :
  match signupAttempt supabase name email password (world m) with
  | SignedIn u =>
      exists m',
        signup supabase name email password m = (Returned tt, m') /\
        isLoading (store m') = false /\
        error (store m') = None /\
        user (store m') = Some u
  | NoUser =>
      exists m',
        signup supabase name email password m = (Returned tt, m') /\
        isLoading (store m') = false /\
        error (store m') = None /\
        user (store m') = user (store m) /\
        profile (store m') = profile (store m)
  | Failed (mkThrown message) =>
      exists m',
        signup supabase name email password m = (Returned tt, m') /\
        isLoading (store m') = false /\
        error (store m')
        = Some (Js.orElse message "Signup failed. Please try again.") /\
        user (store m') = user (store m) /\
        profile (store m') = profile (store m)
  | Failed Nullish =>
      exists m',
        signup supabase name email password m = (Threw typeError, m') /\
        isLoading (store m') = true /\
        error (store m') = None /\
        user (store m') = user (store m) /\
        profile (store m') = profile (store m)
  end.
Proof.
  unfold signupAttempt, validationError, signUpArgs, signup, bind,
    try_catch, await, set, ret, throw, console_error, sleep, messageOf,
    newError.
  destruct (Js.truthy (Js.trim name)) eqn:En; cbn [negb].
  - destruct (Js.truthy (Js.trim email)) eqn:Ee; cbn [negb].
    + destruct (Nat.ltb (String.length password) 6) eqn:Ep.
      * cbn. eexists; repeat split; reflexivity.
      * run_calls; open_summary; eexists; repeat split; reflexivity.
    + cbn. eexists; repeat split; reflexivity.
  - cbn. eexists; repeat split; reflexivity.
Qed.

(** X7.  When the fields are valid and the sign-up answers with a user and no
    error, [signup] stores the user, waits, runs [fetchProfile] once and
    clears [isLoading]: the manual profile creation of lines 106-123 is
    not part of the run.  The run ends with that user and
    [error = null]. *)
Theorem signup_with_user_fetches_profile (name email password : string)
    (m : Machine W) (u : User) (w1 : W) :
  validationError name email password = None ->
  signUp supabase (signUpArgs name email password) (world m)
  = (Resolved (mkAuthResponse (Some u) None), w1) ->
  exists m2,
    fetchProfile supabase (afterSignUp name email password u w1 m)
    = (Returned tt, m2) /\
    signup supabase name email password m
    = (Returned tt, snd (set (with_isLoading false) m2)) /\
    user (store m2) = Some u /\
    error (store m2) = None.
Proof.
  unfold validationError. intros Hv Hup.
  destruct (Js.truthy (Js.trim name)) eqn:En; cbn [negb] in Hv;
    [|discriminate].
  destruct (Js.truthy (Js.trim email)) eqn:Ee; cbn [negb] in Hv;
    [|discriminate].
  destruct (Nat.ltb (String.length password) 6) eqn:Ep; [discriminate|].
  destruct (fetchProfile_summary (afterSignUp name email password u w1 m))
    as (m2 & E & H).
  exists m2. split; [exact E|]. split.
  - unfold signup, bind, try_catch, await, set, ret, throw, sleep.
    rewrite En, Ee, Ep. cbn.
    unfold signUpArgs in Hup. rewrite Hup. cbn.
    unfold afterSignUp, signUpArgs in E. cbn in E. rewrite E. reflexivity.
  - destruct H as [[Hs _] | (_ & p & Hs & _)]; rewrite Hs; cbn; auto.
Qed.

(** X8.  When the fields are valid and the sign-up answers with an error,
    [signup] makes no further call and surfaces the backend's message as
    [error] (the default text when the message is empty); [user] and
    [profile] are left as they were. *)
Theorem signup_surfaces_backend_error (name email password : string)
    (m : Machine W) (data : option User) (err : AuthError) (w1 : W) :
  validationError name email password = None ->
  signUp supabase (signUpArgs name email password) (world m)
  = (Resolved (mkAuthResponse data (Some err)), w1) ->
  exists m',
    signup supabase name email password m = (Returned tt, m') /\
    store m'
    = mkAuthState (user (store m)) (profile (store m)) false
        (Some (Js.orElse (Some (auth_message err))
                 "Signup failed. Please try again.")) /\
    effects m'
    = effects m ++ [CallSignUp (signUpArgs name email password)].
Proof.
  unfold validationError. intros Hv Hup.
  destruct (Js.truthy (Js.trim name)) eqn:En; cbn [negb] in Hv;
    [|discriminate].
  destruct (Js.truthy (Js.trim email)) eqn:Ee; cbn [negb] in Hv;
    [|discriminate].
  destruct (Nat.ltb (String.length password) 6) eqn:Ep; [discriminate|].
  unfold signup, bind, try_catch, await, set, ret, throw, console_error.
  rewrite En, Ee, Ep. cbn.
  unfold signUpArgs in Hup. rewrite Hup. cbn.
  eexists. repeat split.
Qed.

(** X9.  [signup] reads the name only trimmed and the address only through
    its normal form: signing up with the raw fields or with the trimmed
    name and the trimmed, lower-cased address is the same run. *)
Theorem signup_normalises_fields (name email password : string)
    (m : Machine W) :
  signup supabase name email password m
  = signup supabase (Js.trim name) (Js.toLowerCase (Js.trim email))
      password m.
Proof.
  unfold signup.
  rewrite JsFacts.normalise_idem.
  rewrite JsFacts.trim_toLowerCase, !JsFacts.trim_idem.
  rewrite JsFacts.truthy_toLowerCase.
  reflexivity.
Qed.

(* --------------------------------------------------------------------- *)
(** *** Further properties of fetchProfile *)

(** X10.  [fetchProfile] asks only for the profile row of the held user: it
    makes at most three requests, the first a query of that row, each of
    them a query or an insert of the row with that user's id.  Without a
    user it does nothing at all. *)
Theorem fetchProfile_requests_own_row (m : Machine W) :
  exists es,
    effects (snd (fetchProfile supabase m)) = effects m ++ es /\
    length es <= 3 /\
    match user (store m) with
    | None => es = [] /\ snd (fetchProfile supabase m) = m
    | Some u =>
        forallb (onProfileRow (user_id u)) es = true /\
        exists rest, es = CallSelectProfile (user_id u) :: rest
    end.
Proof.
  unfold fetchProfile, bind, try_catch, get, await, set, ret, throw,
    console_error.
  destruct (user (store m)) as [u|] eqn:Hu; cbn.
  - run; rewrite <- ?app_assoc; cbn;
      eexists; (split; [reflexivity|]); cbn;
      rewrite ?String.eqb_refl; cbn;
      (split; [lia|]); (split; [reflexivity|]); eexists; reflexivity.
  - exists []. rewrite app_nil_r. repeat split; cbn; lia.
Qed.

(** X11.  When the profile query answers without an error, [fetchProfile]
    stores what the query returned and makes no further request; a null
    row replaces the stored profile by null. *)
Theorem fetchProfile_stores_found_row (m : Machine W) (u : User)
    (data : option Profile) (w1 : W) :
  user (store m) = Some u ->
  selectProfile supabase (user_id u) (world m)
  = (Resolved (mkSelectResponse data None), w1) ->
  exists m',
    fetchProfile supabase m = (Returned tt, m') /\
    store m' = with_profile data (store m) /\
    effects m' = effects m ++ [CallSelectProfile (user_id u)] /\
    console m' = console m.
Proof.
  intros Hu Hsel.
  unfold fetchProfile, bind, try_catch, get, await, set, ret.
  rewrite Hu. cbn. rewrite Hsel. cbn.
  eexists. repeat split.
Qed.

(** X12.  When the profile query answers with an error other than the no-rows
    code, [fetchProfile] logs it and gives up: one request, one console
    line, and the store exactly as it was. *)
Theorem fetchProfile_swallows_query_error (m : Machine W) (u : User)
    (data : option Profile) (err : PostgrestError) (w1 : W) :
  user (store m) = Some u ->
  selectProfile supabase (user_id u) (world m)
  = (Resolved (mkSelectResponse data (Some err)), w1) ->
  (pg_code err =? "PGRST116") = false ->
  exists m',
    fetchProfile supabase m = (Returned tt, m') /\
    store m' = store m /\
    history m' = history m /\
    effects m' = effects m ++ [CallSelectProfile (user_id u)] /\
    console m'
    = console m
      ++ [ConsoleError "Error fetching profile:" (Some (pg_message err))].
Proof.
  intros Hu Hsel Hcode.
  unfold fetchProfile, bind, try_catch, get, await, set, ret, throw,
    console_error.
  rewrite Hu. cbn. rewrite Hsel. cbn. rewrite Hcode. cbn.
  eexists. repeat split.
Qed.

(** X13.  When the profile query is rejected, [fetchProfile] logs the thrown
    value and gives up: one request, one console line, and the store
    exactly as it was. *)
Theorem fetchProfile_swallows_rejection (m : Machine W) (u : User)
    (e : Thrown) (w1 : W) :
  user (store m) = Some u ->
  selectProfile supabase (user_id u) (world m) = (Rejected e, w1) ->
  exists m',
    fetchProfile supabase m = (Returned tt, m') /\
    store m' = store m /\
    history m' = history m /\
    effects m' = effects m ++ [CallSelectProfile (user_id u)] /\
    console m'
    = console m ++ [ConsoleError "Error fetching profile:" (thrown_message e)].
Proof.
  intros Hu Hsel.
  unfold fetchProfile, bind, try_catch, get, await, set, ret, throw,
    console_error.
  rewrite Hu. cbn. rewrite Hsel. cbn.
  eexists. repeat split.
Qed.

(* --------------------------------------------------------------------- *)
(** *** Logout, restart and the listener *)

(** X14.  After a sign-out call that resolved, a restart of the process finds
    nothing to restore: the store starts from the initial state. *)
Theorem logout_then_restart_is_initial (m : Machine W)
    (r : option AuthError) (w1 : W) :
  signOut supabase (world m) = (Resolved r, w1) ->
  store (snd (rehydrate (snd (logout supabase m)))) = initialState.
Proof.
  intros Hout.
  unfold logout, bind, try_catch, await, set, ret, rehydrate.
  rewrite Hout. reflexivity.
Qed.

(** X15.  The auth-change listener never throws and never touches [error] or
    [isLoading].  On "SIGNED_OUT" it clears [user] and [profile] without
    asking anything of the backend; on "SIGNED_IN" with a user in the
    session it stores that user; on any other notification (also
    "SIGNED_IN" without a session user) it leaves the machine as it
    is. *)
Theorem listener_outcomes (event : string) (session : option Session)
    (m : Machine W) :
  exists m',
    onAuthStateChange supabase event session m = (Returned tt, m') /\
    error (store m') = error (store m) /\
    isLoading (store m') = isLoading (store m) /\
    if event =? "SIGNED_OUT"
    then user (store m') = None /\ profile (store m') = None /\
         effects m' = effects m
    else
      match (if event =? "SIGNED_IN"
             then match session with
                  | Some ses => session_user ses
                  | None => None
                  end
             else None) with
      | Some u => user (store m') = Some u
      | None => m' = m
      end.
Proof.
  unfold onAuthStateChange.
  destruct (event =? "SIGNED_IN") eqn:Ein.
  - apply String.eqb_eq in Ein. subst event. cbn [String.eqb Ascii.eqb].
    change ("SIGNED_IN" =? "SIGNED_OUT") with false.
    destruct session as [[[u|]]|]; cbn [session_user].
    + unfold bind, set. cbn.
      match goal with
      | |- context [fetchProfile supabase ?m1] =>
          destruct (fetchProfile_summary m1) as (m2 & E & H);
          rewrite E; cbn in H
      end.
      exists m2. split; [reflexivity|].
      destruct H as [[Hs _] | (_ & p & Hs & _)]; rewrite Hs; cbn; auto.
    + exists m. repeat split.
    + exists m. repeat split.
  - destruct (event =? "SIGNED_OUT") eqn:Eout.
    + unfold set. cbn. eexists. repeat split.
    + exists m. repeat split.
Qed.

(* --------------------------------------------------------------------- *)
(** *** What the operations keep *)

Section Keeps.

Variable P : AuthState -> Prop.

Lemma keeps_ret {A} (a : A) : keeps (W:=W) P (ret a).
Proof. intros m H; exact H. Qed.

Lemma keeps_throw {A} (e : Thrown) : keeps (W:=W) (A:=A) P (throw e).
Proof. intros m H; exact H. Qed.

Lemma keeps_bind {A B} (c : M W A) (k : A -> M W B) :
  keeps P c -> (forall a, keeps P (k a)) -> keeps P (bind c k).
Proof.
  intros Hc Hk m H. unfold bind. specialize (Hc m H).
  destruct (c m) as [[a|e] m']; cbn in *; [apply Hk; exact Hc|exact Hc].
Qed.

Lemma keeps_try_catch {A} (c : M W A) (h : Thrown -> M W A) :
  keeps P c -> (forall e, keeps P (h e)) -> keeps P (try_catch c h).
Proof.
  intros Hc Hh m H. unfold try_catch. specialize (Hc m H).
  destruct (c m) as [[a|e] m']; cbn in *; [exact Hc|apply Hh; exact Hc].
Qed.

Lemma keeps_await {A} (eff : Effect) (call : W -> Promise A * W) :
  keeps P (await eff call).
Proof.
  intros m H. unfold await.
  destruct (call (world m)) as [[a|e] w']; exact H.
Qed.

Lemma keeps_sleep (ms : nat) : keeps (W:=W) P (sleep ms).
Proof. intros m H; exact H. Qed.

Lemma keeps_console_error (label : string) (e : Thrown) :
  keeps (W:=W) P (console_error label e).
Proof. intros m H; exact H. Qed.

Lemma keeps_console_warn (label : string) (msg : option string) :
  keeps (W:=W) P (console_warn label msg).
Proof. intros m H; exact H. Qed.

Lemma keeps_messageOf (e : Thrown) : keeps (W:=W) P (messageOf e).
Proof. intros m H. destruct e; exact H. Qed.

Lemma keeps_set (patch : AuthState -> AuthState) :
  (forall s, P s -> P (patch s)) -> keeps (W:=W) P (set patch).
Proof. intros Hp m H. cbn. apply Hp. exact H. Qed.

(** [fetchProfile] keeps whatever does not depend on the profile. *)
Lemma keeps_fetchProfile :
  (forall p s, P s -> P (with_profile p s)) ->
  keeps P (fetchProfile supabase).
Proof.
  intros Hp m H.
  destruct (fetchProfile_summary m) as (m' & E & Hsum). rewrite E; cbn.
  destruct Hsum as [[Hs _] | (_ & p & Hs & _)]; rewrite Hs;
    [exact H|apply Hp; exact H].
Qed.

End Keeps.

Ltac keep_patch :=
  let s := fresh "s" in
  intros s; destruct s as [[?|] [?|] ? ?]; cbn; intros; congruence.

Ltac keep :=
  repeat first
    [ apply keeps_fetchProfile; intros ?; keep_patch
    | apply keeps_ret
    | apply keeps_throw
    | apply keeps_messageOf
    | apply keeps_await
    | apply keeps_sleep
    | apply keeps_console_error
    | apply keeps_console_warn
    | apply keeps_set; keep_patch
    | apply keeps_bind; [|intros ?]
    | apply keeps_try_catch; [|intros ?]
    | match goal with
      | |- keeps _ (match ?x with _ => _ end) => destruct x
      end ].

(** X16.  Only [logout] and the signed-out notification end a session: any
    other operation, whatever the backend answers, leaves a store that
    holds a user holding a user. *)
Theorem session_survives (o : Op) (m : Machine W) :
  endsSession o = false ->
  user (store m) <> None ->
  user (store (snd (run_op supabase o m))) <> None.
Proof.
  intros Hends. revert m.
  change (keeps (fun s => user s <> None) (run_op supabase o)).
  destruct o; cbn [run_op]; cbn in Hends; try discriminate;
    unfold login, signup, clearError, onAuthStateChange, rehydrate.
  all: try match type of Hends with
           | (_ =? _) = false => rewrite Hends
           end; keep.
Qed.

(** A rejection the backend is assumed not to make cannot have been
    made. *)
Ltac no_nullish H :=
  destruct H as (Hin & Hup & Hout & Hget);
  repeat match goal with
    | E : signInWithPassword _ ?e ?p ?w = (Rejected Nullish, _) |- _ =>
        exfalso; apply (Hin e p w); rewrite E; reflexivity
    | E : signUp _ ?a ?w = (Rejected Nullish, _) |- _ =>
        exfalso; apply (Hup a w); rewrite E; reflexivity
    | E : signOut _ ?w = (Rejected Nullish, _) |- _ =>
        exfalso; apply (Hout w); rewrite E; reflexivity
    | E : getUser _ ?w = (Rejected Nullish, _) |- _ =>
        exfalso; apply (Hget w); rewrite E; reflexivity
    end.

(** When no auth call rejects with [undefined] or [null], [login] and
    [signup] return with [isLoading = false]. *)
Lemma login_returns_idle (email password : string) (m : Machine W) :
  rejectsWithValues supabase ->
  exists m',
    login supabase email password m = (Returned tt, m') /\
    isLoading (store m') = false.
Proof.
  intros Hvalues.
  unfold login, bind, try_catch, await, set, ret, throw, console_error,
    messageOf.
  run_calls; open_summary; subst;
    try (eexists; split; reflexivity); no_nullish Hvalues.
Qed.

Lemma signup_returns_idle (name email password : string) (m : Machine W) :
  rejectsWithValues supabase ->
  exists m',
    signup supabase name email password m = (Returned tt, m') /\
    isLoading (store m') = false.
Proof.
  intros Hvalues.
  unfold signup, bind, try_catch, await, set, ret, throw, console_error,
    sleep, messageOf.
  run_calls; open_summary; subst;
    try (eexists; split; reflexivity); no_nullish Hvalues.
Qed.

Lemma logout_returns_quiet (m : Machine W) :
  rejectsWithValues supabase ->
  exists m',
    logout supabase m = (Returned tt, m') /\
    isLoading (store m') = isLoading (store m).
Proof.
  intros Hvalues.
  unfold logout, bind, try_catch, await, set, ret, throw, console_error,
    messageOf.
  run; subst; try (eexists; split; reflexivity); no_nullish Hvalues.
Qed.

(** [fetchProfile], [clearError], the listener and a restart return
    whatever the backend does, and leave an idle store idle. *)
Lemma quiet_ops_return (o : Op) (m : Machine W) :
  match o with
  | OpLogin _ _ | OpSignup _ _ _ | OpLogout => True
  | _ =>
      exists m',
        run_op supabase o m = (Returned tt, m') /\
        (isLoading (store m) = false -> isLoading (store m') = false)
  end.
Proof.
  destruct o; cbn [run_op]; try exact I.
  - destruct (fetchProfile_summary m) as (m' & E & H).
    exists m'. split; [exact E|].
    destruct H as [[Hs _] | (_ & p & Hs & _)]; rewrite Hs; cbn; auto.
  - unfold clearError, set. eexists; split; [reflexivity|]; cbn; auto.
  - unfold onAuthStateChange, bind, set, ret.
    run_calls;
      try match goal with
          | |- context [fetchProfile supabase ?m1] =>
              destruct (fetchProfile_summary m1) as (m2 & E & Hfetch);
              rewrite E; cbn in Hfetch
          end;
      eexists; (split; [reflexivity|]); cbn; auto.
    destruct Hfetch as [[Hs _] | (_ & p & Hs & _)]; rewrite Hs; cbn; auto.
  - unfold rehydrate, set. eexists; split; [reflexivity|].
    cbn. destruct (store m); cbn; auto.
Qed.

(** X17.  [fetchProfile], [clearError], the auth-change listener and a
    restart never throw to their caller, whatever the backend answers or
    rejects with.  [login], [signup] and [logout] do not throw either,
    provided no auth call of the backend rejects with [undefined] or
    [null]. *)
Theorem operations_never_throw (o : Op) (m : Machine W) :
  match o with
  | OpLogin _ _ | OpSignup _ _ _ | OpLogout => rejectsWithValues supabase
  | _ => True
  end ->
  exists m', run_op supabase o m = (Returned tt, m').
Proof.
  intros Hvalues.
  pose proof (quiet_ops_return o m) as Hq.
  destruct o; cbn [run_op] in *;
    try (destruct Hq as (m' & E & _); exists m'; exact E).
  - destruct (login_returns_idle email password m Hvalues) as (m' & E & _).
    exists m'; exact E.
  - destruct (signup_returns_idle name email password m Hvalues)
      as (m' & E & _).
    exists m'; exact E.
  - destruct (logout_returns_quiet m Hvalues) as (m' & E & _).
    exists m'; exact E.
Qed.

(** X18.  Provided no auth call of the backend rejects with [undefined]
    or [null], the store is never loading between operations: after any
    sequence of operations run from the initial state, each to
    completion, [isLoading] is false. *)
Theorem idle_between_operations (os : list Op) (w : W) :
  rejectsWithValues supabase ->
  isLoading (store (run_ops supabase os (initialMachine w))) = false.
Proof.
  intros Hvalues.
  assert (Hgen : forall m, isLoading (store m) = false ->
                           isLoading (store (run_ops supabase os m)) = false).
  { induction os as [|o os' IH]; intros m Hm; cbn; [exact Hm|].
    apply IH.
    pose proof (quiet_ops_return o m) as Hq.
    destruct o; cbn [run_op] in *;
      try (destruct Hq as (m' & E & Hl); rewrite E; cbn; apply Hl; exact Hm).
    - destruct (login_returns_idle email password m Hvalues)
        as (m' & E & Hl).
      rewrite E; exact Hl.
    - destruct (signup_returns_idle name email password m Hvalues)
        as (m' & E & Hl).
      rewrite E; exact Hl.
    - destruct (logout_returns_quiet m Hvalues) as (m' & E & Hl).
      rewrite E; cbn. rewrite Hl. exact Hm. }
  apply Hgen. reflexivity.
Qed.

End AuthStoreFacts.

(* ===================================================================== *)
(** ** Properties of the team roster *)
(* ===================================================================== *)

Module TeamPageFacts.

Import TeamPage.

Lemma map_get_set_same (k : string) (v : TeamMember) (m : JsMap) :
  map_get k (map_set k v m) = Some v.
Proof.
  induction m as [|[k' v'] m IH]; cbn.
  - rewrite String.eqb_refl. reflexivity.
  - destruct (k' =? k) eqn:E; cbn.
    + rewrite String.eqb_refl. reflexivity.
    + rewrite E. exact IH.
Qed.

Lemma map_get_set_other (k k' : string) (v : TeamMember) (m : JsMap) :
  k' <> k -> map_get k (map_set k' v m) = map_get k m.
Proof.
  intros Hne. apply String.eqb_neq in Hne.
  induction m as [|[k0 v0] m IH]; cbn.
  - rewrite Hne. reflexivity.
  - destruct (k0 =? k') eqn:E; cbn.
    + apply String.eqb_eq in E. subst k0. rewrite Hne. reflexivity.
    + destruct (k0 =? k); [reflexivity|exact IH].
Qed.

Lemma Forall_map_set (P : string * TeamMember -> Prop)
    (k : string) (v : TeamMember) (m : JsMap) :
  P (k, v) -> Forall P m -> Forall P (map_set k v m).
Proof.
  intros Hkv Hm. induction Hm as [|[k' v'] m Hx Hm IH]; cbn.
  - constructor; [exact Hkv|constructor].
  - destruct (k' =? k); constructor; assumption.
Qed.

Section Rows.

Variables (user : User) (random : nat -> bool).

(** A row never touches the entry of the current user's id. *)
Lemma addRow_keeps_current (acc : JsMap * nat) (pm : MemberRow) :
  map_get (user_id user) (fst (addRow user random acc pm))
  = map_get (user_id user) (fst acc).
Proof.
  destruct acc as [mp n]. unfold addRow.
  destruct (pm_user pm) as [pu|]; [|reflexivity].
  destruct (mp_id pu =? user_id user) eqn:E; cbn; [reflexivity|].
  destruct (isNone (map_get (mp_id pu) mp) || (pm_role pm =? "owner")
            || (pm_role pm =? "admin")); cbn; [|reflexivity].
  apply map_get_set_other. apply String.eqb_neq. exact E.
Qed.

(** Every entry a row writes carries an id other than the current
    user's. *)
Lemma addRow_entries_foreign (acc : JsMap * nat) (pm : MemberRow) :
  Forall (fun kv => id (snd kv) <> user_id user) (fst acc) ->
  Forall (fun kv => id (snd kv) <> user_id user)
    (fst (addRow user random acc pm)).
Proof.
  destruct acc as [mp n]. unfold addRow. intros H.
  destruct (pm_user pm) as [pu|]; [|exact H].
  destruct (mp_id pu =? user_id user) eqn:E; cbn; [exact H|].
  destruct (isNone (map_get (mp_id pu) mp) || (pm_role pm =? "owner")
            || (pm_role pm =? "admin")); cbn; [|exact H].
  apply Forall_map_set; [|exact H].
  cbn. apply String.eqb_neq. exact E.
Qed.

Lemma fold_keeps_current (rows : list MemberRow) (acc : JsMap * nat) :
  map_get (user_id user) (fst (fold_left (addRow user random) rows acc))
  = map_get (user_id user) (fst acc).
Proof.
  revert acc. induction rows as [|pm rows IH]; intros acc; cbn.
  - reflexivity.
  - rewrite IH. apply addRow_keeps_current.
Qed.

Lemma fold_entries_foreign (rows : list MemberRow) (acc : JsMap * nat) :
  Forall (fun kv => id (snd kv) <> user_id user) (fst acc) ->
  Forall (fun kv => id (snd kv) <> user_id user)
    (fst (fold_left (addRow user random) rows acc)).
Proof.
  revert acc. induction rows as [|pm rows IH]; intros acc H; cbn.
  - exact H.
  - apply IH. apply addRow_entries_foreign. exact H.
Qed.

(** The current user's entry, once first in the map, stays first. *)
Lemma addRow_keeps_head (v : TeamMember) (pm : MemberRow)
    (rest : JsMap) (n : nat) :
  Forall (fun kv => id (snd kv) <> user_id user) rest ->
  exists rest' n',
    addRow user random ((user_id user, v) :: rest, n) pm
    = ((user_id user, v) :: rest', n') /\
    Forall (fun kv => id (snd kv) <> user_id user) rest'.
Proof.
  intros H. unfold addRow.
  destruct (pm_user pm) as [pu|]; [|eauto].
  destruct (mp_id pu =? user_id user) eqn:E; cbn [negb]; [eauto|].
  destruct (isNone _ || _ || _); [|eauto].
  cbn [map_set]. rewrite String.eqb_sym, E.
  do 2 eexists. split; [reflexivity|].
  apply Forall_map_set; [|exact H].
  cbn. apply String.eqb_neq. exact E.
Qed.

Lemma fold_keeps_head (v : TeamMember) (rows : list MemberRow)
    (rest : JsMap) (n : nat) :
  Forall (fun kv => id (snd kv) <> user_id user) rest ->
  exists rest',
    fst (fold_left (addRow user random) rows
           ((user_id user, v) :: rest, n))
    = (user_id user, v) :: rest' /\
    Forall (fun kv => id (snd kv) <> user_id user) rest'.
Proof.
  revert rest n. induction rows as [|pm rows IH]; intros rest n H.
  - exists rest. split; [reflexivity|exact H].
  - cbn [fold_left].
    destruct (addRow_keeps_head v pm rest n H) as (rest1 & n1 & E & H1).
    rewrite E. apply IH. exact H1.
Qed.

Lemma rowsOf_snoc (k : string) (l : list MemberRow) (x : MemberRow) :
  rowsOf k (l ++ [x])
  = rowsOf k l ++ match pm_user x with
                  | Some pu => if mp_id pu =? k then [x] else []
                  | None => []
                  end.
Proof.
  unfold rowsOf. rewrite filter_app. cbn [filter].
  destruct (pm_user x) as [pu|]; [|reflexivity].
  destruct (mp_id pu =? k); reflexivity.
Qed.

(** The entry of a foreign id after all rows: built from the deciding
    row of that id, absent when the id has no row. *)
Lemma fold_decided (start : JsMap) (n0 : nat) (k : string)
    (rows : list MemberRow) :
  k <> user_id user ->
  map_get k start = None ->
  match decidingRow k rows with
  | Some pm =>
      exists pu coin,
        pm_user pm = Some pu /\ mp_id pu = k /\
        map_get k (fst (fold_left (addRow user random) rows (start, n0)))
        = Some (rowMember pm pu coin)
  | None =>
      map_get k (fst (fold_left (addRow user random) rows (start, n0)))
      = None
  end.
Proof.
  intros Hk Hstart. induction rows as [|x l IH] using rev_ind.
  - cbn. exact Hstart.
  - rewrite fold_left_app. cbn [fold_left].
    destruct (fold_left (addRow user random) l (start, n0))
      as [mp n] eqn:Efold.
    cbn [fst] in IH.
    unfold decidingRow in *. rewrite rowsOf_snoc.
    unfold addRow.
    destruct (pm_user x) as [pu|] eqn:Epu;
      [|rewrite app_nil_r; exact IH].
    destruct (mp_id pu =? k) eqn:Ek.
    + apply String.eqb_eq in Ek. subst k.
      assert (Hme : (mp_id pu =? user_id user) = false)
        by (apply String.eqb_neq; exact Hk).
      rewrite Hme. cbn [negb].
      rewrite rev_app_distr. cbn [rev app find].
      rewrite <- orb_assoc. fold (privileged x).
      destruct (privileged x) eqn:Epriv.
      * rewrite orb_true_r. cbn [fst].
        exists pu, (random n).
        rewrite map_get_set_same. auto.
      * rewrite orb_false_r.
        destruct (find privileged (rev (rowsOf (mp_id pu) l)))
          as [pm|] eqn:Efind.
        -- destruct IH as (pu' & coin & Hpu & Hid & Hget).
           rewrite Hget. cbn [isNone fst]. eauto.
        -- destruct (rowsOf (mp_id pu) l) as [|y ys] eqn:Erows;
             cbn [hd_error app] in *.
           ++ rewrite IH. cbn [isNone fst].
              exists pu, (random n).
              rewrite map_get_set_same. auto.
           ++ destruct IH as (pu' & coin & Hpu & Hid & Hget).
              rewrite Hget. cbn [isNone fst]. eauto.
    + rewrite app_nil_r.
      destruct (negb (mp_id pu =? user_id user)); [|exact IH].
      destruct (isNone _ || _ || _); [|exact IH]. cbn [fst].
      rewrite map_get_set_other; [exact IH|].
      apply String.eqb_neq. exact Ek.
Qed.

End Rows.

(** C8 (amended).  When the store holds a profile, the current user is
    in the roster with role "owner": the entry under the user's id is
    the one built from the profile, whatever membership rows carry that
    id; it is the first entry of the roster and no other entry has that
    id. *)
Theorem current_user_is_owner (user : User) (profile : Profile)
    (projectMembers : option (list MemberRow)) (random : nat -> bool) :
  map_get (user_id user)
    (membersMap user (Some profile) projectMembers random)
  = Some (currentMember user profile) /\
  role (currentMember user profile) = "owner" /\
  exists others,
    map_values (membersMap user (Some profile) projectMembers random)
    = currentMember user profile :: others /\
    Forall (fun v => id v <> user_id user) others.
Proof.
  unfold membersMap. cbv zeta. destruct projectMembers as [rows|].
  - split; [|split; [reflexivity|]].
    + rewrite fold_keeps_current. cbn. rewrite String.eqb_refl.
      reflexivity.
    + destruct (fold_keeps_head user random (currentMember user profile)
                  rows [] 0 (Forall_nil _)) as (rest & E & H).
      unfold JsMap in *. rewrite E. exists (map snd rest). split; [reflexivity|].
      apply Forall_map. exact H.
  - split; [|split; [reflexivity|]].
    + cbn. rewrite String.eqb_refl. reflexivity.
    + exists []. split; [reflexivity|constructor].
Qed.

(** C10.  When the store's profile is null the roster has no entry for
    the current user: none is inserted up front, a membership row that
    carries the current user's id leaves the map as it is, and so the
    map has nothing under that id and no member of the resulting list
    has that id. *)
Theorem no_profile_no_current_user (user : User)
    (projectMembers : option (list MemberRow)) (random : nat -> bool) :
  map_get (user_id user) (membersMap user None projectMembers random)
  = None /\
  Forall (fun v => id v <> user_id user)
    (map_values (membersMap user None projectMembers random)) /\
  (forall acc role created name email avatar,
      addRow user random acc
        (mkMemberRow role created
           (Some (mkMemberProfile (user_id user) name email avatar)))
      = acc).
Proof.
  unfold membersMap. cbv zeta. split; [|split].
  - destruct projectMembers as [rows|]; [|reflexivity].
    rewrite fold_keeps_current. reflexivity.
  - destruct projectMembers as [rows|]; [|constructor].
    apply Forall_map. apply fold_entries_foreign. constructor.
  - intros [mp n] r c nm em av. unfold addRow; cbn.
    rewrite String.eqb_refl. reflexivity.
Qed.

(** C7 (amended).  A membership row of a user other than the current
    user is written into the map when the map has no entry for that id
    or when the row's role is "owner" or "admin".  Hence the entry of
    such an id is decided by the last owner-or-admin row of that id
    when there is one (a later owner or admin row overwrites whatever
    entry exists), and by the first row of that id otherwise; an id
    without rows has no entry. *)
Theorem roster_entry_decided (user : User) (profile : option Profile)
    (rows : list MemberRow) (random : nat -> bool) (k : string) :
  k <> user_id user ->
  match decidingRow k rows with
  | Some pm =>
      exists pu coin,
        pm_user pm = Some pu /\ mp_id pu = k /\
        map_get k (membersMap user profile (Some rows) random)
        = Some (rowMember pm pu coin)
  | None => map_get k (membersMap user profile (Some rows) random) = None
  end.
Proof.
  intros Hk. unfold membersMap. cbv zeta.
  apply fold_decided; [exact Hk|].
  destruct profile as [p|]; [|reflexivity].
  cbn. destruct (user_id user =? k) eqn:E; [|reflexivity].
  apply String.eqb_eq in E. congruence.
Qed.

(* --------------------------------------------------------------------- *)
(** *** The keys of the map *)

Lemma map_get_In (k : string) (v : TeamMember) (m : JsMap) :
  map_get k m = Some v -> In (k, v) m.
Proof.
  induction m as [|[k' v'] m IH]; cbn; [discriminate|].
  destruct (k' =? k) eqn:E.
  - apply String.eqb_eq in E. intros [= <-]. left. subst. reflexivity.
  - intros H. right. apply IH. exact H.
Qed.

Lemma map_get_seen (k : string) (m : JsMap) :
  isNone (map_get k m) = negb (seenIn k (map fst m)).
Proof.
  induction m as [|[k' v'] m IH]; cbn; [reflexivity|].
  rewrite (String.eqb_sym k k').
  destruct (k' =? k); cbn; [reflexivity|exact IH].
Qed.

Lemma map_set_keys (k : string) (v : TeamMember) (m : JsMap) :
  map fst (map_set k v m)
  = if seenIn k (map fst m) then map fst m else map fst m ++ [k].
Proof.
  unfold seenIn. induction m as [|[k' v'] m IH]; cbn; [reflexivity|].
  rewrite (String.eqb_sym k k').
  destruct (k' =? k) eqn:E; cbn.
  - apply String.eqb_eq in E. subst. reflexivity.
  - rewrite IH. destruct (existsb (String.eqb k) (map fst m)); reflexivity.
Qed.

Lemma seenIn_In (k : string) (seen : list string) :
  seenIn k seen = true <-> In k seen.
Proof.
  unfold seenIn. rewrite existsb_exists. split.
  - intros (x & Hx & E). apply String.eqb_eq in E. subst. exact Hx.
  - intros H. exists k. split; [exact H|apply String.eqb_refl].
Qed.

Lemma firstOccurrences_ext (s1 s2 l : list string) :
  (forall k, seenIn k s1 = seenIn k s2) ->
  firstOccurrences s1 l = firstOccurrences s2 l.
Proof.
  revert s1 s2. induction l as [|k l IH]; intros s1 s2 H;
    cbn [firstOccurrences]; [reflexivity|].
  rewrite <- (H k). destruct (seenIn k s1); [apply IH; exact H|].
  f_equal. apply IH. intros k'.
  change (seenIn k' (k :: s1)) with ((k' =? k) || seenIn k' s1).
  change (seenIn k' (k :: s2)) with ((k' =? k) || seenIn k' s2).
  rewrite H. reflexivity.
Qed.

Lemma firstOccurrences_NoDup (seen l : list string) :
  NoDup seen -> NoDup (seen ++ firstOccurrences seen l).
Proof.
  revert seen. induction l as [|k l IH]; intros seen H;
    cbn [firstOccurrences].
  - rewrite app_nil_r. exact H.
  - destruct (seenIn k seen) eqn:E; [apply IH; exact H|].
    apply (Permutation_NoDup (l:=(k :: seen) ++ firstOccurrences (k :: seen) l)).
    + cbn. apply Permutation_middle.
    + apply IH. constructor; [|exact H].
      intros Hin. apply seenIn_In in Hin. congruence.
Qed.

Section Keys.

Variables (user : User) (random : nat -> bool).

(** The keys after the rows: the keys before, then the new foreign ids
    in the order in which the rows first mention them. *)
Lemma fold_keys (rows : list MemberRow) (mp : JsMap) (n : nat) :
  map fst (fst (fold_left (addRow user random) rows (mp, n)))
  = map fst mp
    ++ firstOccurrences (map fst mp) (foreignIds (user_id user) rows).
Proof.
  revert mp n. induction rows as [|pm rows IH]; intros mp n.
  - cbn. rewrite app_nil_r. reflexivity.
  - cbn [fold_left foreignIds flat_map]. fold (foreignIds (user_id user) rows).
    unfold addRow at 2.
    destruct (pm_user pm) as [pu|]; [|apply IH].
    destruct (mp_id pu =? user_id user) eqn:Eme; cbn [negb app];
      [apply IH|].
    rewrite <- orb_assoc, map_get_seen.
    cbn [firstOccurrences].
    destruct (seenIn (mp_id pu) (map fst mp)) eqn:Eseen; cbn [negb orb].
    + destruct (_ || _).
      * rewrite IH, map_set_keys, Eseen. reflexivity.
      * apply IH.
    + rewrite IH, map_set_keys, Eseen, <- app_assoc. cbn [app].
      do 2 f_equal. apply firstOccurrences_ext.
      intros k. unfold seenIn. rewrite existsb_app. cbn.
      rewrite orb_false_r. apply orb_comm.
Qed.

(** Every entry sits under the id it carries. *)
Lemma fold_ids_are_keys (rows : list MemberRow) (acc : JsMap * nat) :
  Forall (fun kv => id (snd kv) = fst kv) (fst acc) ->
  Forall (fun kv => id (snd kv) = fst kv)
    (fst (fold_left (addRow user random) rows acc)).
Proof.
  revert acc. induction rows as [|pm rows IH]; intros acc H; cbn;
    [exact H|].
  apply IH. destruct acc as [mp n]. unfold addRow.
  destruct (pm_user pm) as [pu|]; [|exact H].
  destruct (negb _); [|exact H].
  destruct (_ || _ || _); [|exact H].
  apply Forall_map_set; [reflexivity|exact H].
Qed.

End Keys.

Lemma ids_of_values (m : JsMap) :
  Forall (fun kv => id (snd kv) = fst kv) m ->
  map id (map_values m) = map fst m.
Proof.
  unfold map_values. induction 1 as [|[k v] m Hkv _ IH]; cbn;
    [reflexivity|].
  cbn in Hkv. rewrite Hkv, IH. reflexivity.
Qed.

(** X19.  The ids of the roster, in order: the current user first when the
    store holds a profile, then the other members in the order in which
    the rows first mention them, each once. *)
Theorem roster_order (user : User) (profile : option Profile)
    (rows : list MemberRow) (random : nat -> bool) :
  map id (map_values (membersMap user profile (Some rows) random))
  = match profile with
    | Some _ => user_id user :: firstOccurrences [user_id user]
                                  (foreignIds (user_id user) rows)
    | None => firstOccurrences [] (foreignIds (user_id user) rows)
    end.
Proof.
  unfold membersMap. cbv zeta.
  rewrite ids_of_values.
  - rewrite fold_keys. destruct profile; reflexivity.
  - apply fold_ids_are_keys. destruct profile; cbn; repeat constructor.
Qed.

(** The map never holds an id twice. *)
Lemma membersMap_ids_distinct (user : User) (profile : option Profile)
    (projectMembers : option (list MemberRow)) (random : nat -> bool) :
  NoDup (map id (map_values
                   (membersMap user profile projectMembers random))).
Proof.
  unfold membersMap. cbv zeta.
  destruct projectMembers as [rows|].
  - rewrite ids_of_values.
    + rewrite fold_keys. apply firstOccurrences_NoDup.
      destruct profile; cbn; repeat constructor. intros [].
    + apply fold_ids_are_keys. destruct profile; cbn; repeat constructor.
  - destruct profile; cbn; repeat constructor. intros [].
Qed.

(** X20.  The roster on the page never lists an id twice: a fetch that fails
    or is skipped keeps the roster as it was, and a fetch that succeeds
    replaces it by the values of the map, whose ids are distinct. *)
Theorem fetchTeamMembers_keeps_ids_distinct (user : option User)
    (profile : option Profile) (query : Promise MembersResponse)
    (random : nat -> bool) (st : PageState) :
  NoDup (map id (teamMembers st)) ->
  NoDup (map id (teamMembers
                   (fetchTeamMembers user profile query random st))).
Proof.
  intros H. unfold fetchTeamMembers.
  destruct user as [u|]; [|exact H].
  destruct query as [r|e]; [|exact H].
  destruct (members_error r); [exact H|].
  apply membersMap_ids_distinct.
Qed.

(* --------------------------------------------------------------------- *)
(** *** Where the members come from *)

Section Origin.

Variables (user : User) (random : nat -> bool) (rows : list MemberRow).

Let fromRows (kv : string * TeamMember) : Prop :=
  exists pm pu coin,
    In pm rows /\ pm_user pm = Some pu /\ mp_id pu <> user_id user /\
    kv = (mp_id pu, rowMember pm pu coin).

Lemma fold_entries_from_rows (start : JsMap) (l : list MemberRow)
    (acc : JsMap * nat) :
  (forall pm, In pm l -> In pm rows) ->
  Forall (fun kv => In kv start \/ fromRows kv) (fst acc) ->
  Forall (fun kv => In kv start \/ fromRows kv)
    (fst (fold_left (addRow user random) l acc)).
Proof.
  revert acc. induction l as [|pm l IH]; intros acc Hl H; cbn; [exact H|].
  apply IH; [intros x Hx; apply Hl; right; exact Hx|].
  destruct acc as [mp n]. unfold addRow.
  destruct (pm_user pm) as [pu|] eqn:Epu; [|exact H].
  destruct (mp_id pu =? user_id user) eqn:Eme; cbn [negb]; [exact H|].
  destruct (_ || _ || _); [|exact H].
  apply Forall_map_set; [|exact H].
  right. exists pm, pu, (random n).
  repeat split; [apply Hl; left; reflexivity|exact Epu|].
  apply String.eqb_neq. exact Eme.
Qed.

End Origin.

(** X21.  Every member of the roster is either the current user's entry, built
    from the stored profile, or the entry built from one of the rows, of
    a user other than the current user. *)
Theorem roster_members_come_from_rows (user : User)
    (profile : option Profile) (rows : list MemberRow)
    (random : nat -> bool) :
  Forall
    (fun v =>
       (exists p, profile = Some p /\ v = currentMember user p) \/
       (exists pm pu coin,
          In pm rows /\ pm_user pm = Some pu /\
          mp_id pu <> user_id user /\ v = rowMember pm pu coin))
    (map_values (membersMap user profile (Some rows) random)).
Proof.
  unfold membersMap, map_values. cbv zeta. apply Forall_map.
  set (start := match profile with
                | Some p => [(user_id user, currentMember user p)]
                | None => []
                end : JsMap).
  assert (H : Forall
                (fun kv =>
                   In kv start \/
                   exists pm pu coin,
                     In pm rows /\ pm_user pm = Some pu /\
                     mp_id pu <> user_id user /\
                     kv = (mp_id pu, rowMember pm pu coin))
                (fst (fold_left (addRow user random) rows (start, 0)))).
  { apply (fold_entries_from_rows user random rows start rows (start, 0)).
    - auto.
    - apply Forall_forall. intros kv Hin. left. exact Hin. }
  revert H. apply Forall_impl. intros [k v] [Hin | Hrow]; cbn.
  - left. subst start. destruct profile as [p|]; [|destruct Hin].
    destruct Hin as [[= _ <-]|[]]. exists p. split; reflexivity.
  - right. destruct Hrow as (pm & pu & coin & H1 & H2 & H3 & [= _ ->]).
    exists pm, pu, coin. auto.
Qed.

Lemma decidingRow_exists (k : string) (rows : list MemberRow)
    (pm : MemberRow) :
  In pm (rowsOf k rows) ->
  exists d, decidingRow k rows = Some d /\
            (privileged pm = true -> privileged d = true).
Proof.
  intros Hin. unfold decidingRow.
  destruct (find privileged (rev (rowsOf k rows))) as [d|] eqn:Ef.
  - exists d. split; [reflexivity|]. intros _.
    apply (find_some _ _ Ef).
  - destruct (rowsOf k rows) as [|d ds] eqn:Er; [destruct Hin|].
    exists d. split; [reflexivity|]. intros Hp.
    pose proof (find_none _ _ Ef pm) as Hnone.
    rewrite Hnone in Hp; [discriminate|].
    apply in_rev. rewrite rev_involutive. exact Hin.
Qed.

(** X22.  Every user the rows mention, other than the current user, is on the
    roster; and a user who is owner or admin in one of the rows is shown
    as owner or admin. *)
Theorem row_member_is_listed (user : User) (profile : option Profile)
    (rows : list MemberRow) (random : nat -> bool)
    (pm : MemberRow) (pu : MemberProfile) :
  In pm rows ->
  pm_user pm = Some pu ->
  mp_id pu <> user_id user ->
  exists v,
    In v (map_values (membersMap user profile (Some rows) random)) /\
    id v = mp_id pu /\
    (if privileged pm
     then (role v =? "owner") || (role v =? "admin") = true
     else True).
Proof.
  intros Hin Hpu Hne.
  assert (Hrow : In pm (rowsOf (mp_id pu) rows)).
  { unfold rowsOf. apply filter_In. split; [exact Hin|].
    rewrite Hpu. apply String.eqb_refl. }
  destruct (decidingRow_exists _ _ _ Hrow) as (d & Hd & Hpriv).
  set (start := match profile with
                | Some p => [(user_id user, currentMember user p)]
                | None => []
                end : JsMap).
  assert (Hstart : map_get (mp_id pu) start = None).
  { subst start. destruct profile as [p|]; [|reflexivity].
    cbn. destruct (user_id user =? mp_id pu) eqn:E; [|reflexivity].
    apply String.eqb_eq in E. congruence. }
  pose proof (fold_decided user random start 0 (mp_id pu) rows Hne Hstart)
    as Hdec.
  rewrite Hd in Hdec. destruct Hdec as (pu' & coin & Hpu' & Hid & Hget).
  exists (rowMember d pu' coin). split; [|split].
  - unfold membersMap, map_values. cbv zeta. fold start.
    apply (in_map snd _ _ (map_get_In _ _ _ Hget)).
  - exact Hid.
  - destruct (privileged pm); [|exact I]. apply Hpriv. reflexivity.
Qed.

(* --------------------------------------------------------------------- *)
(** *** Search, list area, task counters and invitation *)

(** X23.  An empty search shows the whole roster. *)
Theorem empty_search_shows_everyone (teamMembers : list TeamMember) :
  filteredMembers teamMembers "" = teamMembers.
Proof.
  unfold filteredMembers.
  induction teamMembers as [|v l IH]; cbn [filter]; [reflexivity|].
  unfold matchesQuery at 1. cbn [Js.toLowerCase].
  rewrite JsFacts.includes_empty. cbn. rewrite IH. reflexivity.
Qed.

(** X25.  A member is found by their own name or email, in any letter case. *)
Theorem search_finds_by_name_or_email (teamMembers : list TeamMember)
    (searchQuery : string) (v : TeamMember) :
  In v teamMembers ->
  Js.toLowerCase searchQuery = Js.toLowerCase (name v) \/
  Js.toLowerCase searchQuery = Js.toLowerCase (email v) ->
  In v (filteredMembers teamMembers searchQuery).
Proof.
  intros Hin Hq. unfold filteredMembers. apply filter_In.
  split; [exact Hin|]. unfold matchesQuery.
  destruct Hq as [-> | ->]; rewrite JsFacts.includes_refl;
    [reflexivity|apply orb_true_r].
Qed.

(** X26.  The list area says "No team members yet" only when the page is not
    loading, nothing is typed in the search box and the roster itself is
    empty. *)
Theorem no_members_yet_means_empty_roster (isLoading : bool)
    (teamMembers : list TeamMember) (searchQuery hint : string) :
  listView isLoading teamMembers searchQuery
  = EmptyState "No team members yet" hint ->
  isLoading = false /\ searchQuery = "" /\ teamMembers = [].
Proof.
  unfold listView. destruct isLoading; [discriminate|].
  destruct (filteredMembers teamMembers searchQuery) eqn:Ef;
    [|discriminate].
  destruct (Js.truthy searchQuery) eqn:Et; [discriminate|].
  intros _. unfold Js.truthy in Et. apply negb_false_iff in Et.
  apply String.eqb_eq in Et. subst searchQuery.
  repeat split. destruct teamMembers as [|v l]; [reflexivity|].
  unfold filteredMembers in Ef. cbn [filter] in Ef.
  unfold matchesQuery in Ef at 1. cbn [Js.toLowerCase] in Ef.
  rewrite JsFacts.includes_empty in Ef. discriminate.
Qed.

Section TaskCounters.

Variable Task : Type.
Variable assignee_id : Task -> option string.
Variable status : Task -> string.

(** X27.  The completed tasks of a member are the assigned tasks of that
    member whose status is "done": the "Completed" counter of a card
    never exceeds its "Assigned" counter. *)
Theorem completed_within_assigned (tasks : list Task) (memberId : string) :
  getCompletedTasksForMember Task assignee_id status tasks memberId
  = filter (fun task => status task =? "done")
      (getTasksForMember Task assignee_id tasks memberId) /\
  length (getCompletedTasksForMember Task assignee_id status tasks memberId)
  <= length (getTasksForMember Task assignee_id tasks memberId).
Proof.
  unfold getCompletedTasksForMember, getTasksForMember.
  assert (E : filter
                (fun task =>
                   assignedTo Task assignee_id memberId task
                   && (status task =? "done")) tasks
              = filter (fun task => status task =? "done")
                  (filter (assignedTo Task assignee_id memberId) tasks)).
  { induction tasks as [|t l IH]; cbn; [reflexivity|].
    destruct (assignedTo Task assignee_id memberId t); cbn;
      [rewrite IH; reflexivity|exact IH]. }
  split; [exact E|]. rewrite E. apply filter_length_le.
Qed.

End TaskCounters.

(** X28.  Whenever the send button is enabled, [handleInviteMember] announces
    the address exactly as typed, empties the field, closes the dialog
    and ends not loading; the chosen role is kept and is not part of the
    announcement. *)
Theorem enabled_invitation_is_sent (st : InviteState) :
  sendDisabled st = false ->
  handleInviteMember st
  = mkInviteState "" (inviteRole st) false false
      (alerts st
       ++ [String.append "Invitation sent to " (inviteEmail st)]).
Proof.
  unfold sendDisabled, handleInviteMember. intros H.
  apply orb_false_iff in H. destruct H as [H _]. rewrite H. reflexivity.
Qed.

End TeamPageFacts.

(* ===================================================================== *)
(** ** Sample runs *)
(* ===================================================================== *)

Module SampleRuns.

Import Samples.

(** C1, as stated, fails: a login with wrong credentials while a
    session is held ends with the failure message in [error] and the
    held user still in [user], which is neither "user set and no error"
    nor "no user and error set". *)
Lemma login_failure_keeps_session :
  store loginWithSession
  = mkAuthState (Some alice) (Some aliceProfile) false
      (Some "Invalid login credentials") /\
  ~ ((user (store loginWithSession) <> None /\
      error (store loginWithSession) = None) \/
     (user (store loginWithSession) = None /\
      error (store loginWithSession) <> None)).
Proof.
  split; [reflexivity|].
  intros [[_ H] | [H _]]; discriminate H.
Qed.

(** A run of C2: the address is normalised, the sign-in answers "Email
    not confirmed", the current user resolves, and the login ends in the
    success state. *)
Lemma login_unconfirmed_email_witness :
  signInWithPassword (scripted unconfirmed) "alice@x.com" "pw" 0
  = (Resolved (mkAuthResponse None
                 (Some (mkAuthError "Email not confirmed"))), 0) /\
  Js.includes "Email not confirmed" "Email not confirmed" = true /\
  getUser (scripted unconfirmed) 0 = (Resolved (Some alice), 0) /\
  user (store (snd (login (scripted unconfirmed) " Alice@X.com" "pw"
                      (initialMachine 0)))) = Some alice /\
  isLoading (store (snd (login (scripted unconfirmed) " Alice@X.com" "pw"
                           (initialMachine 0)))) = false /\
  error (store (snd (login (scripted unconfirmed) " Alice@X.com" "pw"
                       (initialMachine 0)))) = None.
Proof.
  split; [reflexivity|]. split; [reflexivity|]. split; [reflexivity|].
  destruct (login_unconfirmed_email_succeeds (scripted unconfirmed)
              " Alice@X.com" "pw" (initialMachine 0) None
              (mkAuthError "Email not confirmed") 0 0 alice
              eq_refl eq_refl eq_refl)
    as (m2 & rest & _ & _ & _ & H).
  exact H.
Defined.

(** C3 on the code: sign-up returns a user and the first profile fetch
    fails with a database error.  [fetchProfile] swallows the failure,
    so the [catch] of [signup] does not run: after the sign-up call, the
    delay and the one profile query nothing more is asked of the
    backend, no insert in particular, and the run ends without a
    profile. *)
Theorem signup_skips_manual_insert :
  effects signupJane
  = [CallSignUp (mkSignUpArgs "jane@x.com" "secret1" "Jane" "Jane" None);
     SetTimeout 1000;
     CallSelectProfile "u2"] /\
  console signupJane
  = [ConsoleError "Error fetching profile:"
       (Some "permission denied for table profiles")] /\
  store signupJane = mkAuthState (Some jane) None false None.
Proof. repeat split; reflexivity. Qed.

(** C4, as stated, fails: when the insert is refused there is one
    insert attempt and no re-fetch, and no profile is stored. *)
Lemma fetchProfile_insert_refused :
  effects fetchWithInsertRefused
  = [CallSelectProfile "u1";
     CallInsertProfile (mkProfileInsert "u1" (Some "alice@x.com") "alice")]
  /\
  profile (store fetchWithInsertRefused) = None /\
  ~ (effects fetchWithInsertRefused
     = [CallSelectProfile "u1";
        CallInsertProfile
          (mkProfileInsert "u1" (Some "alice@x.com") "alice");
        CallSelectProfile "u1"] /\
     exists p, profile (store fetchWithInsertRefused) = Some p /\
               profile_id p = "u1" /\
               profile_email p = "alice@x.com" /\
               profile_name p = "alice").
Proof.
  split; [reflexivity|]. split; [reflexivity|].
  intros [H _]. discriminate H.
Qed.

(** A run of the amended C4: the row is absent, the insert succeeds and
    the re-fetch finds the row. *)
Lemma fetchProfile_creates_missing_row_witness :
  user (store (machineAt (mkAuthState (Some alice) None false None)))
  = Some alice /\
  defaultName alice = Some "alice" /\
  selectProfile (scripted selfHealing) "u1" 0 = (failed noRows, 1) /\
  pg_code noRows = "PGRST116" /\
  exists m',
    fetchProfile (scripted selfHealing)
      (machineAt (mkAuthState (Some alice) None false None))
    = (Returned tt, m') /\
    effects m'
    = [CallSelectProfile "u1";
       CallInsertProfile (mkProfileInsert "u1" (Some "alice@x.com") "alice");
       CallSelectProfile "u1"] /\
    profile (store m') = Some aliceProfile.
Proof.
  split; [reflexivity|]. split; [reflexivity|]. split; [reflexivity|].
  split; [reflexivity|].
  destruct (fetchProfile_creates_missing_row (scripted selfHealing)
              (machineAt (mkAuthState (Some alice) None false None))
              alice "alice" None noRows 1
              eq_refl eq_refl eq_refl eq_refl)
    as (m' & E & H).
  exists m'. split; [exact E|]. exact H.
Defined.

(** C7, as stated, fails: for a user who is owner in one project and
    admin in another, the later admin row replaces the owner entry, so
    the final role is not that of the first owner-or-admin row. *)
Lemma later_admin_replaces_owner :
  option_map TeamPage.role
    (TeamPage.map_get "u9"
       (TeamPage.membersMap alice (Some aliceProfile)
          (Some ownerThenAdmin) heads))
  = Some "admin" /\
  ~ (option_map TeamPage.role
       (TeamPage.map_get "u9"
          (TeamPage.membersMap alice (Some aliceProfile)
             (Some ownerThenAdmin) heads))
     = option_map TeamPage.pm_role
         (find TeamPage.privileged
            (TeamPage.rowsOf "u9" ownerThenAdmin))).
Proof.
  split; [reflexivity|]. intros H. discriminate H.
Qed.

(** A run of the amended C7 on the same rows: the entry of "u9" is the
    one built from the admin row, its last owner-or-admin row. *)
Lemma roster_entry_decided_witness :
  "u9" <> user_id alice /\
  exists pu coin,
    TeamPage.pm_user (memberRow "u9" "admin") = Some pu /\
    TeamPage.mp_id pu = "u9" /\
    TeamPage.map_get "u9"
      (TeamPage.membersMap alice (Some aliceProfile)
         (Some ownerThenAdmin) heads)
    = Some (TeamPage.rowMember (memberRow "u9" "admin") pu coin).
Proof.
  assert (Hne : "u9" <> user_id alice)
    by (apply String.eqb_neq; reflexivity).
  split; [exact Hne|].
  exact (TeamPageFacts.roster_entry_decided alice (Some aliceProfile)
           ownerThenAdmin heads "u9" Hne).
Defined.

(** C8, as stated, fails: with the rows of the specification's example
    and no profile in the store, the roster has no entry for the
    current user, so none with role "owner". *)
Lemma no_profile_no_owner_entry :
  TeamPage.map_get "u1"
    (TeamPage.membersMap alice None (Some ownRows) heads)
  = None /\
  ~ (option_map TeamPage.role
       (TeamPage.map_get (user_id alice)
          (TeamPage.membersMap alice None (Some ownRows) heads))
     = Some "owner").
Proof.
  split; [reflexivity|]. intros H. discriminate H.
Qed.

(* --------------------------------------------------------------------- *)
(** *** Runs of the further properties *)

Lemma login_with_user_succeeds_witness :
  signInWithPassword (scripted signedIn) "alice@x.com" "pw" 0
  = (Resolved (mkAuthResponse (Some alice) None), 0) /\
  exists m' rest,
    login (scripted signedIn) "Alice@x.com" "pw" (initialMachine 0)
    = (Returned tt, m') /\
    user (store m') = Some alice /\
    error (store m') = None /\
    isLoading (store m') = false /\
    effects m'
    = [] ++ CallSignIn "alice@x.com" "pw" :: CallSelectProfile "u1" :: rest.
Proof.
  split; [reflexivity|].
  exact (login_with_user_succeeds (scripted signedIn) "Alice@x.com" "pw"
           (initialMachine 0) alice 0 eq_refl).
Defined.

Lemma login_surfaces_backend_error_witness :
  Js.includes "Email not confirmed" "Invalid login credentials" = false /\
  exists m',
    login (scripted wrongPassword) "alice@x.com" "wrong" aliceSession
    = (Returned tt, m') /\
    store m'
    = mkAuthState (Some alice) (Some aliceProfile) false
        (Some "Invalid login credentials") /\
    effects m' = [CallSignIn "alice@x.com" "wrong"] /\
    world m' = 0.
Proof.
  split; [reflexivity|].
  exact (login_surfaces_backend_error (scripted wrongPassword)
           "alice@x.com" "wrong" aliceSession None
           (mkAuthError "Invalid login credentials") 0 eq_refl eq_refl).
Defined.

Lemma login_unconfirmed_without_user_witness :
  getUser (scripted unconfirmedNoUser) 0 = (Resolved None, 0) /\
  exists m',
    login (scripted unconfirmedNoUser) "alice@x.com" "pw" (initialMachine 0)
    = (Returned tt, m') /\
    store m'
    = mkAuthState None None false (Some "Email not confirmed") /\
    effects m' = [CallSignIn "alice@x.com" "pw"; CallGetUser].
Proof.
  split; [reflexivity|].
  exact (login_unconfirmed_without_user (scripted unconfirmedNoUser)
           "alice@x.com" "pw" (initialMachine 0) None
           (mkAuthError "Email not confirmed") 0 0
           eq_refl eq_refl eq_refl).
Defined.

Lemma signup_rejects_invalid_input_witness :
  validationError "Jane" "jane@x.com" "12345"
  = Some "Password must be at least 6 characters" /\
  exists m',
    signup (scripted signupDenied) "Jane" "jane@x.com" "12345"
      (initialMachine 0)
    = (Returned tt, m') /\
    store m'
    = mkAuthState None None false
        (Some "Password must be at least 6 characters") /\
    effects m' = [] /\
    world m' = 0.
Proof.
  split; [reflexivity|].
  exact (signup_rejects_invalid_input (scripted signupDenied)
           "Jane" "jane@x.com" "12345"
           "Password must be at least 6 characters" (initialMachine 0)
           eq_refl).
Defined.

Lemma signup_with_user_fetches_profile_witness :
  validationError "Jane" "jane@x.com" "secret1" = None /\
  exists m2,
    fetchProfile (scripted signupDenied)
      (afterSignUp "Jane" "jane@x.com" "secret1" jane 0 (initialMachine 0))
    = (Returned tt, m2) /\
    signup (scripted signupDenied) "Jane" "jane@x.com" "secret1"
      (initialMachine 0)
    = (Returned tt, snd (set (with_isLoading false) m2)) /\
    user (store m2) = Some jane /\
    error (store m2) = None.
Proof.
  split; [reflexivity|].
  exact (signup_with_user_fetches_profile (scripted signupDenied)
           "Jane" "jane@x.com" "secret1" (initialMachine 0) jane 0
           eq_refl eq_refl).
Defined.

Lemma signup_surfaces_backend_error_witness :
  validationError "Jane" "jane@x.com" "secret1" = None /\
  exists m',
    signup (scripted signupTaken) "Jane" "jane@x.com" "secret1"
      (initialMachine 0)
    = (Returned tt, m') /\
    store m'
    = mkAuthState None None false (Some "User already registered") /\
    effects m'
    = [CallSignUp (signUpArgs "Jane" "jane@x.com" "secret1")].
Proof.
  split; [reflexivity|].
  exact (signup_surfaces_backend_error (scripted signupTaken)
           "Jane" "jane@x.com" "secret1" (initialMachine 0) None
           (mkAuthError "User already registered") 0 eq_refl eq_refl).
Defined.

Lemma fetchProfile_stores_found_row_witness :
  user (store aliceSession) = Some alice /\
  exists m',
    fetchProfile (scripted signedIn) aliceSession = (Returned tt, m') /\
    store m' = with_profile (Some aliceProfile) (store aliceSession) /\
    effects m' = [CallSelectProfile "u1"] /\
    console m' = [].
Proof.
  split; [reflexivity|].
  exact (fetchProfile_stores_found_row (scripted signedIn) aliceSession
           alice (Some aliceProfile) 1 eq_refl eq_refl).
Defined.

Lemma fetchProfile_swallows_query_error_witness :
  (pg_code denied =? "PGRST116") = false /\
  exists m',
    fetchProfile (scripted signupDenied) janeSession = (Returned tt, m') /\
    store m' = store janeSession /\
    history m' = history janeSession /\
    effects m' = [CallSelectProfile "u2"] /\
    console m'
    = [ConsoleError "Error fetching profile:"
         (Some "permission denied for table profiles")].
Proof.
  split; [reflexivity|].
  exact (fetchProfile_swallows_query_error (scripted signupDenied)
           janeSession jane None denied 1 eq_refl eq_refl eq_refl).
Defined.

Lemma fetchProfile_swallows_rejection_witness :
  selectProfile (scripted wrongPassword) "u2" 0 = (offline, 1) /\
  exists m',
    fetchProfile (scripted wrongPassword) janeSession = (Returned tt, m') /\
    store m' = store janeSession /\
    history m' = history janeSession /\
    effects m' = [CallSelectProfile "u2"] /\
    console m'
    = [ConsoleError "Error fetching profile:" (Some "Failed to fetch")].
Proof.
  split; [reflexivity|].
  exact (fetchProfile_swallows_rejection (scripted wrongPassword)
           janeSession jane (mkThrown (Some "Failed to fetch")) 1
           eq_refl eq_refl).
Defined.

Lemma logout_then_restart_is_initial_witness :
  signOut (scripted signOutOk) 0 = (Resolved None, 0) /\
  store (snd (rehydrate (snd (logout (scripted signOutOk) aliceSession))))
  = initialState.
Proof.
  split; [reflexivity|].
  exact (logout_then_restart_is_initial (scripted signOutOk) aliceSession
           None 0 eq_refl).
Defined.

Lemma session_survives_witness :
  endsSession (OpLogin "alice@x.com" "wrong") = false /\
  user (store aliceSession) <> None /\
  user (store (snd (run_op (scripted wrongPassword)
                      (OpLogin "alice@x.com" "wrong") aliceSession)))
  <> None.
Proof.
  assert (Hu : user (store aliceSession) <> None) by (cbn; discriminate).
  split; [reflexivity|]. split; [exact Hu|].
  exact (session_survives (scripted wrongPassword)
           (OpLogin "alice@x.com" "wrong") aliceSession eq_refl Hu).
Defined.

Lemma fetchTeamMembers_keeps_ids_distinct_witness :
  NoDup (map TeamPage.id (TeamPage.teamMembers (TeamPage.mkPageState [] true)))
  /\
  NoDup (map TeamPage.id
           (TeamPage.teamMembers
              (TeamPage.fetchTeamMembers (Some alice) (Some aliceProfile)
                 (Resolved (TeamPage.mkMembersResponse
                              (Some ownerThenAdmin) None))
                 heads (TeamPage.mkPageState [] true)))).
Proof.
  assert (H0 : NoDup (map TeamPage.id
                        (TeamPage.teamMembers
                           (TeamPage.mkPageState [] true))))
    by constructor.
  split; [exact H0|].
  exact (TeamPageFacts.fetchTeamMembers_keeps_ids_distinct (Some alice)
           (Some aliceProfile)
           (Resolved (TeamPage.mkMembersResponse (Some ownerThenAdmin) None))
           heads (TeamPage.mkPageState [] true) H0).
Defined.

Lemma row_member_is_listed_witness :
  In (memberRow "u9" "owner") ownerThenAdmin /\
  "u9" <> user_id alice /\
  exists v,
    In v (TeamPage.map_values
            (TeamPage.membersMap alice (Some aliceProfile)
               (Some ownerThenAdmin) heads)) /\
    TeamPage.id v = "u9" /\
    (TeamPage.role v =? "owner") || (TeamPage.role v =? "admin") = true.
Proof.
  assert (Hin : In (memberRow "u9" "owner") ownerThenAdmin)
    by (left; reflexivity).
  assert (Hne : "u9" <> user_id alice)
    by (apply String.eqb_neq; reflexivity).
  split; [exact Hin|]. split; [exact Hne|].
  exact (TeamPageFacts.row_member_is_listed alice (Some aliceProfile)
           ownerThenAdmin heads (memberRow "u9" "owner")
           (TeamPage.mkMemberProfile "u9" "Bob" "bob@x.com" None)
           Hin eq_refl Hne).
Defined.

Lemma search_finds_by_name_or_email_witness :
  In bob [bob] /\
  Js.toLowerCase "BOB" = Js.toLowerCase (TeamPage.name bob) /\
  In bob (TeamPage.filteredMembers [bob] "BOB").
Proof.
  assert (Hin : In bob [bob]) by (left; reflexivity).
  split; [exact Hin|]. split; [reflexivity|].
  exact (TeamPageFacts.search_finds_by_name_or_email [bob] "BOB" bob Hin
           (or_introl eq_refl)).
Defined.

Lemma no_members_yet_means_empty_roster_witness :
  TeamPage.listView false [] ""
  = TeamPage.EmptyState "No team members yet"
      "Invite team members to start collaborating on projects." /\
  false = false /\ "" = "" /\ @nil TeamPage.TeamMember = [].
Proof.
  split; [reflexivity|].
  exact (TeamPageFacts.no_members_yet_means_empty_roster false [] ""
           "Invite team members to start collaborating on projects."
           eq_refl).
Defined.

Lemma enabled_invitation_is_sent_witness :
  TeamPage.sendDisabled inviteForm = false /\
  TeamPage.handleInviteMember inviteForm
  = TeamPage.mkInviteState "" "member" false false
      ["Invitation sent to Carol@x.com "].
Proof.
  split; [reflexivity|].
  exact (TeamPageFacts.enabled_invitation_is_sent inviteForm eq_refl).
Defined.

(** C5 on the code: the sign-out fails and the backend says so in the
    value the call resolves with.  [logout] does not look at that value
    (line 138), unlike [login] and [signup] (lines 36 and 93): it clears
    [user] and [profile] and leaves [error] null, where a failed sign-out
    should only set [error] and keep the session. *)
Theorem logout_ignores_returned_error :
  signOut (scripted signOutRefused) 0
  = (Resolved (Some (mkAuthError "Network request failed")), 0) /\
  fst logoutRefused = Returned tt /\
  store (snd logoutRefused) = mkAuthState None None false None /\
  console (snd logoutRefused) = [].
Proof. repeat split; reflexivity. Qed.

(** C6, as stated, fails: a signed-out notification that arrives while
    [fetchProfile] awaits its query clears [user] and [profile], and the
    resumed [fetchProfile] then stores the row it asked for: the store
    ends with a profile and no user. *)
Lemma signed_out_during_fetch_leaves_profile :
  store signedOutDuringFetch
  = mkAuthState None (Some aliceProfile) false None /\
  ~ (profile (store signedOutDuringFetch) <> None ->
     user (store signedOutDuringFetch) <> None).
Proof.
  split; [reflexivity|].
  intros H. apply H; [discriminate|reflexivity].
Qed.

Lemma operations_never_throw_witness :
  rejectsWithValues (scripted wrongPassword) /\
  exists m',
    run_op (scripted wrongPassword) (OpLogin "alice@x.com" "wrong")
      aliceSession
    = (Returned tt, m').
Proof.
  assert (Hvalues : rejectsWithValues (scripted wrongPassword))
    by (repeat split; intros; cbn; discriminate).
  split; [exact Hvalues|].
  exact (operations_never_throw (scripted wrongPassword)
           (OpLogin "alice@x.com" "wrong") aliceSession Hvalues).
Defined.

Lemma idle_between_operations_witness :
  rejectsWithValues (scripted wrongPassword) /\
  isLoading
    (store (run_ops (scripted wrongPassword)
              [OpLogin "alice@x.com" "wrong"; OpLogout; OpFetchProfile]
              (initialMachine 0)))
  = false.
Proof.
  assert (Hvalues : rejectsWithValues (scripted wrongPassword))
    by (repeat split; intros; cbn; discriminate).
  split; [exact Hvalues|].
  exact (idle_between_operations (scripted wrongPassword)
           [OpLogin "alice@x.com" "wrong"; OpLogout; OpFetchProfile]
           0 Hvalues).
Defined.

End SampleRuns.

